(** * Finverse server: authentication flow and AI chat proxy

    A shallow embedding of the Express server of the Finverse repository:

    - [server/src/routes/chatbot.js]   (module [Chatbot])
    - [server/src/middleware/authMiddleware.js] and
      [server/src/routes/auth.js]      (modules [Jwt], [Bcrypt], [User],
      [Auth] and [Race])
    - [server/src/index.js]            (module [Startup])

    The libraries the handlers call (jsonwebtoken, bcryptjs, axios,
    mongoose) are not part of the repository.  Their cryptographic and
    serialisation primitives are kept abstract in type classes; the
    control flow around them (what throws, what is compared, which clock
    is read) is written out, so that the handlers run on concrete inputs
    once an instance is given.  Request body fields are strings or
    absent, as the client sends them; the database answers every
    operation.

    Definitions come first, module by module; the facts about each
    module follow in a module of the same name with the suffix
    [Facts]. *)

From Stdlib Require Import ZArith NArith String Ascii List Bool Lia HexString.

Set Warnings "-register-all".
Import ListNotations.
Open Scope string_scope.

(* ================================================================== *)
(** * JavaScript values *)
(* ================================================================== *)

Module Js.

(** A parsed JSON document.  Numbers are kept integral: no handler
    modelled here does arithmetic on a JSON number. *)
Inductive json : Type :=
| JNull
| JBool (b : bool)
| JNum (n : Z)
| JStr (s : string)
| JArr (items : list json)
| JObj (fields : list (string * json)).

(** A JavaScript value that may be [undefined]. *)
Definition value := option json.
Definition undefined : value := None.

(** ToBoolean. *)
Definition truthy (v : value) : bool :=
  match v with
  | None => false
  | Some JNull => false
  | Some (JBool b) => b
  | Some (JNum n) => negb (n =? 0)%Z
  | Some (JStr s) => negb (s =? EmptyString)
  | Some (JArr _) => true
  | Some (JObj _) => true
  end.

(** [a || b] *)
Definition or_else (a b : value) : value := if truthy a then a else b.

Fixpoint assoc (k : string) (fields : list (string * json)) : value :=
  match fields with
  | [] => None
  | (k', v) :: rest => if k' =? k then Some v else assoc k rest
  end.

(** [v?.k] for a key [k] that is not a builtin property of strings,
    numbers, booleans or arrays (the handlers read [message],
    [candidates], [content], [parts] and [text] only). *)
Definition prop (k : string) (v : value) : value :=
  match v with
  | Some (JObj fields) => assoc k fields
  | _ => None
  end.

(** [v?.[0]]: the first element of an array, the first character of a
    string, the property ["0"] of an object. *)
Definition first (v : value) : value :=
  match v with
  | Some (JArr items) => nth_error items 0
  | Some (JObj fields) => assoc "0" fields
  | Some (JStr (String c _)) => Some (JStr (String c EmptyString))
  | _ => None
  end.

(** The value [JSON.stringify] writes for a property: an [undefined]
    property is left out of the object. *)
Definition field (k : string) (v : value) : list (string * json) :=
  match v with
  | Some j => [(k, j)]
  | None => []
  end.

(** Strings that may be absent: the fields of a request body. *)
Definition falsy_str (v : option string) : bool :=
  match v with
  | None => true
  | Some s => s =? EmptyString
  end.

(** Whether some object inside [j] has a property named [k]. *)
Fixpoint has_key (k : string) (j : json) : bool :=
  match j with
  | JObj fields =>
      existsb (fun kv => (fst kv =? k) || has_key k (snd kv)) fields
  | JArr items => existsb (has_key k) items
  | _ => false
  end.

End Js.

Import Js.

(* ================================================================== *)
(** * Exceptions and HTTP responses *)
(* ================================================================== *)

(** A computation that returns a value or throws.  The thrown value is
    the [message] of the JavaScript [Error]. *)
Inductive result (A : Type) : Type :=
| Ok (a : A)
| Throw (message : string).
Arguments Ok {A} a.
Arguments Throw {A} message.

Definition bind {A B} (m : result A) (k : A -> result B) : result B :=
  match m with
  | Ok a => k a
  | Throw e => Throw e
  end.

(** [try { m } catch (e) { h e }] *)
Definition try_catch {A} (m : result A) (h : string -> A) : A :=
  match m with
  | Ok a => a
  | Throw e => h e
  end.

Declare Scope js_scope.
Delimit Scope js_scope with js.
Notation "x <- m ;; k" := (bind m (fun x => k))
  (at level 61, m at next level, right associativity) : js_scope.
Notation "'try' m 'catch' h" := (try_catch m h)
  (at level 62, m at level 61, h at level 61) : js_scope.
Open Scope js_scope.

(** What Express sends: [res.status(s).json(b)]; [res.json(b)] sends 200. *)
Record Response : Type := mkResponse { status : Z; body : json }.

Definition res_status_json (s : Z) (b : json) : Response := mkResponse s b.
Definition res_json (b : json) : Response := mkResponse 200 b.

(** [process.env], as far as the server reads it. *)
Record Env : Type := mkEnv {
  JWT_SECRET : option string;
  MONGODB_URI : option string;
  PORT : option string;
  GEMINI_API_KEY : option string
}.

(* ================================================================== *)
(** * routes/chatbot.js *)
(* ================================================================== *)

Module Chatbot.

(** What the provider does with one request. *)
Inductive Upstream : Type :=
| TransportFailure (message : string)
| HttpResponse (code : Z) (data : json).

(** [axios.post]: resolves with [data] on a 2xx status, rejects on any
    other status and on a transport failure. *)
Definition axios_post (up : Upstream) : result json :=
  match up with
  | TransportFailure m => Throw m
  | HttpResponse code data =>
      if ((200 <=? code) && (code <? 300))%Z then Ok data
      else Throw "Request failed with status code"
  end.

(** Template literals print an undefined key as [undefined]. *)
Definition url (env : Env) : string :=
  "https://generativelanguage.googleapis.com/v1beta/models/gemini-2.5-flash:generateContent?key="
  ++ match GEMINI_API_KEY env with Some k => k | None => "undefined" end.

Definition payload (message : value) : json :=
  JObj [("contents",
         JArr [JObj [("role", JStr "user");
                     ("parts", JArr [JObj (field "text" message)])]])].

Definition fallback_reply : string :=
  "Sorry, I couldn’t generate a response.".

Definition failure_text : string :=
  "Chatbot failed to respond. Check API key or model endpoint.".

(** [data?.candidates?.[0]?.content?.parts?.[0]?.text] *)
Definition first_candidate_text (data : json) : value :=
  prop "text" (first (prop "parts" (prop "content"
    (first (prop "candidates" (Some data)))))).

(** [router.post("/")].  [req_body] is [req.body] ([None] when no body
    was parsed), [net] the provider's answer to the request sent. *)
Definition relay (env : Env) (net : string -> json -> Upstream)
    (req_body : option json) : Response :=
  try (
    message <- match req_body with
               | Some b => Ok (prop "message" (Some b))
               | None => Throw "Cannot destructure property 'message'"
               end ;;
    data <- axios_post (net (url env) (payload message)) ;;
    let reply :=
      or_else (first_candidate_text data) (Some (JStr fallback_reply)) in
    Ok (res_json (JObj (field "reply" reply)))
  ) catch (fun _ =>
    res_status_json 500 (JObj [("error", JStr failure_text)])).

(** The upstream outcomes the specification names: the provider is
    unreachable or answers with a status that is not a success ... *)
Definition failed (up : Upstream) : bool :=
  match up with
  | TransportFailure _ => true
  | HttpResponse code _ => negb ((200 <=? code) && (code <? 300))%Z
  end.

(** ... or answers with a success whose body has no first textual
    candidate. *)
Definition success_without_text (up : Upstream) : bool :=
  match up with
  | TransportFailure _ => false
  | HttpResponse code data =>
      ((200 <=? code) && (code <? 300))%Z
      && negb (truthy (first_candidate_text data))
  end.

(** The answer sent from the [catch] branch. *)
Definition failure_response : Response :=
  res_status_json 500 (JObj [("error", JStr failure_text)]).

End Chatbot.

(* ================================================================== *)
(** * String helpers of the JavaScript runtime *)
(* ================================================================== *)

Module Str.

(** [s.slice(n)] for [n >= 0]: [s] without its first [n] characters. *)
Fixpoint slice (n : nat) (s : string) : string :=
  match n, s with
  | O, _ => s
  | S n', String _ rest => slice n' rest
  | S _, EmptyString => EmptyString
  end.

(** [s.startsWith(p)] *)
Definition startsWith (p s : string) : bool := String.prefix p s.

(** [s.split(sep)] for a one-character separator. *)
Fixpoint split (sep : ascii) (s : string) : list string :=
  match s with
  | EmptyString => [EmptyString]
  | String c rest =>
      if Ascii.eqb c sep then EmptyString :: split sep rest
      else match split sep rest with
           | w :: ws => String c w :: ws
           | [] => [String c EmptyString]
           end
  end.

(** No occurrence of [sep] in [s]. *)
Fixpoint lacks (sep : ascii) (s : string) : bool :=
  match s with
  | EmptyString => true
  | String c rest => negb (Ascii.eqb c sep) && lacks sep rest
  end.

Definition is_space (c : ascii) : bool :=
  let n := nat_of_ascii c in
  (n =? 32)%nat || ((9 <=? n)%nat && (n <=? 13)%nat).

(** [s.trim() === ''] *)
Fixpoint blank (s : string) : bool :=
  match s with
  | EmptyString => true
  | String c rest => is_space c && blank rest
  end.

End Str.

(* ================================================================== *)
(** * jsonwebtoken: [jwt.sign] and [jwt.verify] *)
(* ================================================================== *)

Module Jwt.

Definition ObjectId := N.

(** The object the routes sign: [{ id, name, email }]. *)
Record Claims : Type := mkClaims {
  id : ObjectId;
  name : string;
  email : string
}.

(** The payload of a token the routes issue: the claims, with the
    [iat] and [exp] that [jwt.sign] adds (seconds since the epoch). *)
Record Payload : Type := mkPayload {
  claims : Claims;
  iat : Z;
  exp : Z
}.

(** The [alg] of a JWS header. *)
Inductive Alg : Type := HS256 | HS384 | HS512 | RS256 | AlgNone.

(** The symmetric algorithms: what [verify] allows for a secret that is
    not a public key when no [algorithms] option is given. *)
Definition is_hmac (a : Alg) : bool :=
  match a with
  | HS256 | HS384 | HS512 => true
  | RS256 | AlgNone => false
  end.

(** The primitives under the compact serialisation: base64url of the
    JSON header and payload, and the base64url HMAC of the signing
    input under a key. *)
Class Codec : Type := {
  encode_header : Alg -> string;
  decode_header : string -> option Alg;
  encode_payload : Payload -> string;
  decode_payload : string -> option Payload;
  mac : Alg -> string -> string -> string
}.

(** What base64url and JSON give: decoding inverts encoding, and a
    segment holds neither a dot nor only white space. *)
Class CodecLaws (C : Codec) : Prop := {
  decode_encode_header : forall a, decode_header (encode_header a) = Some a;
  decode_encode_payload : forall p, decode_payload (encode_payload p) = Some p;
  header_lacks_dot : forall a, Str.lacks "." (encode_header a) = true;
  payload_lacks_dot : forall p, Str.lacks "." (encode_payload p) = true;
  mac_lacks_dot : forall a k m, Str.lacks "." (mac a k m) = true;
  mac_not_blank : forall a k m, Str.blank (mac a k m) = false
}.

(** [expiresIn: '7d'], in seconds. *)
Definition expiresIn_7d : Z := 7 * 24 * 60 * 60.

(** [Math.floor(Date.now() / 1000)] *)
Definition clockTimestamp (now : Z) : Z := now / 1000.

(** [jwt.sign(claims, secretOrPrivateKey, { expiresIn: '7d' })] at
    [Date.now() = now]. *)
Definition sign `{Codec} (c : Claims) (secretOrPrivateKey : option string)
    (now : Z) : result string :=
  match secretOrPrivateKey with
  | None => Throw "secretOrPrivateKey must have a value"
  | Some key =>
      if key =? EmptyString then Throw "secretOrPrivateKey must have a value"
      else
        let timestamp := clockTimestamp now in
        let payload := mkPayload c timestamp (timestamp + expiresIn_7d) in
        let input := encode_header HS256 ++ "." ++ encode_payload payload in
        Ok (input ++ "." ++ mac HS256 key input)
  end.

(** [jwt.verify(jwtString, secretOrPublicKey)] at [Date.now() = now]. *)
Definition verify `{Codec} (jwtString : string)
    (secretOrPublicKey : option string) (now : Z) : result Payload :=
  if jwtString =? EmptyString then Throw "jwt must be provided"
  else
    match Str.split "." jwtString with
    | [h; p; s] =>
        match decode_header h, decode_payload p with
        | Some alg, Some payload =>
            let hasSignature := negb (Str.blank s) in
            let hasKey := negb (falsy_str secretOrPublicKey) in
            if negb hasSignature && hasKey then
              Throw "jwt signature is required"
            else if hasSignature && negb hasKey then
              Throw "secret or public key must be provided"
            else if negb hasSignature then
              Throw "please specify none in algorithms to verify unsigned tokens"
            else
              let key := match secretOrPublicKey with
                         | Some k => k
                         | None => EmptyString
                         end in
              if negb (is_hmac alg) then Throw "invalid algorithm"
              else if negb (s =? mac alg key (h ++ "." ++ p)) then
                Throw "invalid signature"
              else if (clockTimestamp now >=? exp payload)%Z then
                Throw "jwt expired"
              else Ok payload
        | _, _ => Throw "invalid token"
        end
    | _ => Throw "jwt malformed"
    end.

(** Why a token is bad, in the words of the specification: it is
    malformed (not three segments, or a segment that does not decode),
    tampered (the signature is not the one the key gives for its
    header and payload) or expired. *)
Inductive Bad `{Codec} (secret : option string) (now : Z) : string -> Prop :=
| Malformed (t : string) :
    (forall h p s, Str.split "." t <> [h; p; s]) -> Bad secret now t
| Undecodable (t h p s : string) :
    Str.split "." t = [h; p; s] ->
    decode_header h = None \/ decode_payload p = None ->
    Bad secret now t
| Tampered (t h p s : string) (alg : Alg) :
    Str.split "." t = [h; p; s] ->
    decode_header h = Some alg ->
    s <> mac alg (match secret with Some k => k | None => EmptyString end)
           (h ++ "." ++ p) ->
    Bad secret now t
| Expired (t h p s : string) (payload : Payload) :
    Str.split "." t = [h; p; s] ->
    decode_payload p = Some payload ->
    (exp payload <= clockTimestamp now)%Z ->
    Bad secret now t.

End Jwt.

(* ================================================================== *)
(** * bcryptjs: [bcrypt.hash] and [bcrypt.compare] *)
(* ================================================================== *)

Module Bcrypt.

(** The key derivation under bcryptjs: the hash string of a password
    under a salt, and the check of a password against a hash string. *)
Class Kdf : Type := {
  hashSync : string -> string -> string;
  compareSync : string -> string -> bool
}.

(** [bcrypt.hash(s, 10)]: rejects when [s] is not a string; [salt] is
    the salt [genSalt(10)] draws. *)
Definition hash `{Kdf} (s : option string) (salt : string) : result string :=
  match s with
  | Some password => Ok (hashSync password salt)
  | None => Throw "Illegal arguments: undefined, number"
  end.

(** [bcrypt.compare(s, hash)]: rejects when [s] is not a string. *)
Definition compare `{Kdf} (s : option string) (hash : string) : result bool :=
  match s with
  | Some password => Ok (compareSync password hash)
  | None => Throw "Illegal arguments: undefined, string"
  end.

End Bcrypt.

(* ================================================================== *)
(** * models/User.js *)
(* ================================================================== *)

Module User.

Definition ObjectId := Jwt.ObjectId.

(** Modelled from the spec: the user model (models/User.js is not part
    of the sources read).  A persisted user holds an id generated at
    creation, a name, an email used as login key and the salted
    password hash. *)
Record Doc : Type := mkDoc {
  _id : ObjectId;
  name : string;
  email : string;
  passwordHash : string
}.

(** Modelled from the spec: the collection of user records.  Whether
    the schema declares a unique index on [email] is not visible from
    the routes, so it is a field: the handlers are verified for both
    values. *)
Record Collection : Type := mkCollection {
  documents : list Doc;
  nextId : ObjectId;
  uniqueEmail : bool
}.

Definition has_email (e : string) (u : Doc) : bool := email u =? e.

(** Modelled from the spec: [User.findOne({ email })], the first record
    with that email or [null].  Every record has an email, so a query
    for an undefined email finds none. *)
Definition findOne (db : Collection) (e : option string) : option Doc :=
  match e with
  | Some e' => find (has_email e') (documents db)
  | None => None
  end.

(** Modelled from the spec: [User.findById(id)]. *)
Definition findById (db : Collection) (i : ObjectId) : option Doc :=
  find (fun u => (_id u =? i)%N) (documents db).

(** Modelled from the spec: [User.create({ name, email, passwordHash })].
    The record gets a fresh id and is appended; under a unique index an
    email already stored makes the insert throw (a duplicate key
    error). *)
Definition create (db : Collection) (n e h : string)
    : result (Doc * Collection) :=
  if uniqueEmail db && existsb (has_email e) (documents db) then
    Throw "E11000 duplicate key error"
  else
    let user := mkDoc (nextId db) n e h in
    Ok (user, mkCollection (documents db ++ [user]) (N.succ (nextId db))
                (uniqueEmail db)).

Definition id_json (i : ObjectId) : json := JStr (HexString.of_N i).

(** [.select('name email')]: the projection keeps [_id], [name] and
    [email]; a query that found nothing yields [null]. *)
Definition select_name_email (u : option Doc) : json :=
  match u with
  | Some d => JObj [("_id", id_json (_id d));
                    ("name", JStr (name d));
                    ("email", JStr (email d))]
  | None => JNull
  end.

End User.

(* ================================================================== *)
(** * middleware/authMiddleware.js and routes/auth.js *)
(* ================================================================== *)

Module Auth.

(** [req.body] of the auth routes: each field a string, or absent. *)
Record Body : Type := mkBody {
  name : option string;
  email : option string;
  password : option string
}.

Record Request : Type := mkRequest {
  authorization : option string;
  req_body : Body
}.

(** What a handler reads from outside the request: the clock
    ([Date.now()], milliseconds) and the salt drawn by [bcrypt.hash]. *)
Record World : Type := mkWorld {
  now : Z;
  salt : string
}.

(** What the middleware does with a request: answer it, or call
    [next()] with [req.userId] set. *)
Inductive Guard : Type :=
| Rejected (r : Response)
| Next (userId : User.ObjectId).

Definition message (m : string) : json := JObj [("message", JStr m)].

(** The string of a field that passed a presence check. *)
Definition str (v : option string) : string :=
  match v with Some s => s | None => EmptyString end.

(** [header.startsWith('Bearer ') ? header.slice(7) : null], for
    [header = req.headers.authorization || ''] *)
Definition token_of (req : Request) : option string :=
  let header := match authorization req with
                | Some h => h
                | None => EmptyString
                end in
  if Str.startsWith "Bearer " header then Some (Str.slice 7 header) else None.

Definition invalid_credentials : Response :=
  res_status_json 400 (message "Invalid credentials").

Definition missing_token : Response :=
  res_status_json 401 (message "Missing token").

Definition invalid_token : Response :=
  res_status_json 401 (message "Invalid token").

(** [authMiddleware(req, res, next)] *)
Definition authMiddleware `{Jwt.Codec} (env : Env) (w : World)
    (req : Request) : Guard :=
  let token := token_of req in
  if falsy_str token then Rejected missing_token
  else
    try (
      decoded <- Jwt.verify (str token) (JWT_SECRET env) (now w) ;;
      Ok (Next (Jwt.id (Jwt.claims decoded)))
    ) catch (fun _ => Rejected invalid_token).

(** An [async] handler over the user collection: it may write to the
    collection and then throw; the write stays. *)
Definition Async (A : Type) : Type :=
  User.Collection -> User.Collection * result A.

Definition ret {A} (a : A) : Async A := fun db => (db, Ok a).

Definition await {A B} (m : Async A) (k : A -> Async B) : Async B :=
  fun db =>
    match m db with
    | (db', Ok a) => k a db'
    | (db', Throw e) => (db', Throw e)
    end.

(** A call that does not touch the collection. *)
Definition lift {A} (m : result A) : Async A := fun db => (db, m).

Definition try_async {A} (m : Async A) (h : string -> Async A) : Async A :=
  fun db =>
    match m db with
    | (db', Ok a) => (db', Ok a)
    | (db', Throw e) => h e db'
    end.

Definition findOne (e : option string) : Async (option User.Doc) :=
  fun db => (db, Ok (User.findOne db e)).

Definition findById (i : User.ObjectId) : Async (option User.Doc) :=
  fun db => (db, Ok (User.findById db i)).

Definition create (n e h : string) : Async User.Doc :=
  fun db =>
    match User.create db n e h with
    | Ok (user, db') => (db', Ok user)
    | Throw m => (db, Throw m)
    end.

Declare Scope async_scope.
Delimit Scope async_scope with async.
Notation "x <~ m ;; k" := (await m (fun x => k))
  (at level 61, m at next level, right associativity) : async_scope.

Definition claims_of (user : User.Doc) : Jwt.Claims :=
  Jwt.mkClaims (User._id user) (User.name user) (User.email user).

(** [{ token, user: { id, name, email } }] *)
Definition session (token : string) (user : User.Doc) : json :=
  JObj [("token", JStr token);
        ("user", JObj [("id", User.id_json (User._id user));
                       ("name", JStr (User.name user));
                       ("email", JStr (User.email user))])].

(** [router.post('/register')] *)
Definition register `{Jwt.Codec} `{Bcrypt.Kdf} (env : Env) (w : World)
    (b : Body) : Async Response :=
  try_async (
    if falsy_str (name b) || falsy_str (email b) || falsy_str (password b)
    then ret (res_status_json 400 (message "All fields are required"))
    else
      (exists_ <~ findOne (email b) ;;
       match exists_ with
       | Some _ => ret (res_status_json 400 (message "Email already in use"))
       | None =>
           passwordHash <~ lift (Bcrypt.hash (password b) (salt w)) ;;
           user <~ create (str (name b)) (str (email b)) passwordHash ;;
           token <~ lift (Jwt.sign (claims_of user) (JWT_SECRET env) (now w)) ;;
           ret (res_json (session token user))
       end)%async
  ) (fun _ => ret (res_status_json 500 (message "Server error"))).

(** [router.post('/login')] *)
Definition login `{Jwt.Codec} `{Bcrypt.Kdf} (env : Env) (w : World)
    (b : Body) : Async Response :=
  try_async (
    (user <~ findOne (email b) ;;
     match user with
     | None => ret (res_status_json 400 (message "Invalid credentials"))
     | Some u =>
         ok <~ lift (Bcrypt.compare (password b) (User.passwordHash u)) ;;
         if negb ok
         then ret (res_status_json 400 (message "Invalid credentials"))
         else
           token <~ lift (Jwt.sign (claims_of u) (JWT_SECRET env) (now w)) ;;
           ret (res_json (session token u))
     end)%async
  ) (fun _ => ret (res_status_json 500 (message "Server error"))).

(** The handler of [router.get('/me')], behind the middleware: it has
    no [try]. *)
Definition me_handler (userId : User.ObjectId) : Async Response :=
  (user <~ findById userId ;;
   ret (res_json (JObj [("user", User.select_name_email user)])))%async.

(** [router.get('/me', authMiddleware, handler)]: the handler runs only
    when the middleware calls [next()]. *)
Definition protect `{Jwt.Codec} (env : Env) (w : World) (req : Request)
    (handler : User.ObjectId -> Async Response) : Async Response :=
  match authMiddleware env w req with
  | Rejected r => ret r
  | Next userId => handler userId
  end.

Definition me `{Jwt.Codec} (env : Env) (w : World) (req : Request)
    : Async Response :=
  protect env w req me_handler.

End Auth.

(* ================================================================== *)
(** * index.js: start-up *)
(* ================================================================== *)

Module Startup.

(** Where start-up ends: [process.exit(code)], or the server listening
    on a port and serving the routes. *)
Inductive Process : Type :=
| Exited (code : Z)
| Listening (port : string).

(** [mongoose.connect(uri)]: rejects for an undefined uri and for a
    database that cannot be reached. *)
Definition connect (reachable : string -> bool) (uri : option string)
    : result unit :=
  match uri with
  | None => Throw "The uri parameter to openUri() must be a string, got undefined"
  | Some u => if reachable u then Ok tt else Throw "connection failed"
  end.

(** [process.env.PORT || 4000] *)
Definition port (env : Env) : string :=
  if falsy_str (PORT env) then "4000"
  else match PORT env with Some p => p | None => "4000" end.

(** The number a string of decimal digits writes, and [None] for any
    other string (the empty one, a sign, white space, a fraction, an
    exponent, a name). *)
Fixpoint digits (s : string) (acc : N) : option N :=
  match s with
  | EmptyString => Some acc
  | String c rest =>
      let d := nat_of_ascii c in
      if ((48 <=? d) && (d <=? 57))%nat
      then digits rest (10 * acc + N.of_nat (d - 48))%N
      else None
  end.

Definition decimal (s : string) : option N :=
  match s with
  | EmptyString => None
  | _ => digits s 0%N
  end.

(** Whether [app.listen] throws for a port given as a string that is
    not a plain decimal number is kept abstract (Node converts the
    string to a number, and takes it for the name of a pipe when that
    fails). *)
Class PortCheck : Type := other_port_throws : string -> bool.

(** [app.listen(PORT, ...)]: Node checks the port before it binds and
    throws for a number above 65535.  The default 4000 passes. *)
Definition listen `{PortCheck} (env : Env) : result unit :=
  if falsy_str (PORT env) then Ok tt
  else
    let throws := match decimal (port env) with
                  | Some n => (65535 <? n)%N
                  | None => other_port_throws (port env)
                  end in
    if throws then Throw "options.port should be >= 0 and < 65536"
    else Ok tt.

(** The module body of index.js, after [dotenv.config()] has filled
    [process.env]: [app.listen] runs inside the [then] whose [catch]
    exits, so a listen that throws ends in [process.exit(1)] as
    well. *)
Definition main `{PortCheck} (env : Env) (reachable : string -> bool)
    : Process :=
  try (
    _ <- connect reachable (MONGODB_URI env) ;;
    _ <- listen env ;;
    Ok (Listening (port env))
  ) catch (fun _ => Exited 1).

End Startup.

(* ================================================================== *)
(** * Two registrations in flight *)
(* ================================================================== *)

Module Race.

Import Auth.

(** The register handler between two database operations.  Node runs
    one handler at a time and switches at an [await]; the database runs
    one operation at a time.  A request is suspended with its query
    sent ([AwaitFindOne]), with its insert sent ([AwaitCreate]), or has
    been answered ([Sent]). *)
Inductive Task : Type :=
| AwaitFindOne (w : World) (b : Body)
| AwaitCreate (w : World) (b : Body) (passwordHash : string)
| Sent (r : Response).

(** The handler up to its first [await]. *)
Definition start (w : World) (b : Body) : Task :=
  if falsy_str (name b) || falsy_str (email b) || falsy_str (password b)
  then Sent (res_status_json 400 (message "All fields are required"))
  else AwaitFindOne w b.

Definition server_error : Response :=
  res_status_json 500 (message "Server error").

(** The pending database operation runs, and the handler continues to
    its next database operation or to its answer. *)
Definition resume `{Jwt.Codec} `{Bcrypt.Kdf} (env : Env)
    (db : User.Collection) (t : Task) : User.Collection * Task :=
  match t with
  | AwaitFindOne w b =>
      match User.findOne db (email b) with
      | Some _ =>
          (db, Sent (res_status_json 400 (message "Email already in use")))
      | None =>
          match Bcrypt.hash (password b) (salt w) with
          | Ok passwordHash => (db, AwaitCreate w b passwordHash)
          | Throw _ => (db, Sent server_error)
          end
      end
  | AwaitCreate w b passwordHash =>
      match User.create db (str (name b)) (str (email b)) passwordHash with
      | Ok (user, db') =>
          match Jwt.sign (claims_of user) (JWT_SECRET env) (now w) with
          | Ok token => (db', Sent (res_json (session token user)))
          | Throw _ => (db', Sent server_error)
          end
      | Throw _ => (db, Sent server_error)
      end
  | Sent r => (db, Sent r)
  end.

(** Two requests in flight over one collection. *)
Record System : Type := mkSystem {
  db : User.Collection;
  task1 : Task;
  task2 : Task
}.

Inductive Turn : Type := First | Second.

Definition step `{Jwt.Codec} `{Bcrypt.Kdf} (env : Env) (s : System)
    (t : Turn) : System :=
  match t with
  | First => let (db', t') := resume env (db s) (task1 s) in
             mkSystem db' t' (task2 s)
  | Second => let (db', t') := resume env (db s) (task2 s) in
              mkSystem db' (task1 s) t'
  end.

Definition run `{Jwt.Codec} `{Bcrypt.Kdf} (env : Env) (schedule : list Turn)
    (s : System) : System :=
  fold_left (step env) schedule s.

Definition arrive (d : User.Collection) (w1 : World) (b1 : Body)
    (w2 : World) (b2 : Body) : System :=
  mkSystem d (start w1 b1) (start w2 b2).

(** The outcomes of a finished registration, as the caller sees them. *)
Definition succeeded (t : Task) : bool :=
  match t with
  | Sent r => (status r =? 200)%Z
  | _ => false
  end.

Definition email_in_use (t : Task) : bool :=
  match t with
  | Sent (mkResponse 400 (JObj [(k, JStr m)])) =>
      (k =? "message") && (m =? "Email already in use")
  | _ => false
  end.

(** Exactly one success, and the other request told the email is in
    use. *)
Definition one_winner (s : System) : bool :=
  (succeeded (task1 s) && email_in_use (task2 s))
  || (email_in_use (task1 s) && succeeded (task2 s)).

(** Both requests have queried before either inserts. *)
Definition interleaved : list Turn := [First; Second; First; Second].

(** One request runs to its answer before the other starts. *)
Definition sequential : list Turn := [First; First; Second; Second].

End Race.

(* ================================================================== *)
(** * Executable instances of the primitives *)
(* ================================================================== *)

(** Small stand-ins for base64url, JSON, HMAC and the bcrypt key
    derivation, on which the handlers above can be run.  They have the
    shape of the real primitives (injective, dot-free segments, a
    keyed tag) and none of their strength. *)
Module Toy.

Definition bit (b : bool) : ascii := if b then "1"%char else "0"%char.
Definition unbit (c : ascii) : bool := Ascii.eqb c "1"%char.

(** Eight characters 0 or 1 for each character. *)
Fixpoint enc_string (s : string) : string :=
  match s with
  | EmptyString => EmptyString
  | String (Ascii b0 b1 b2 b3 b4 b5 b6 b7) rest =>
      String (bit b0) (String (bit b1) (String (bit b2) (String (bit b3)
      (String (bit b4) (String (bit b5) (String (bit b6) (String (bit b7)
      (enc_string rest))))))))
  end.

Fixpoint dec_string (s : string) : string :=
  match s with
  | String c0 (String c1 (String c2 (String c3
    (String c4 (String c5 (String c6 (String c7 rest))))))) =>
      String (Ascii (unbit c0) (unbit c1) (unbit c2) (unbit c3)
                    (unbit c4) (unbit c5) (unbit c6) (unbit c7))
             (dec_string rest)
  | _ => EmptyString
  end.

Fixpoint enc_pos (p : positive) : string :=
  match p with
  | xH => EmptyString
  | xO q => String "0" (enc_pos q)
  | xI q => String "1" (enc_pos q)
  end.

Fixpoint dec_pos (s : string) : positive :=
  match s with
  | EmptyString => xH
  | String c rest => if unbit c then xI (dec_pos rest) else xO (dec_pos rest)
  end.

Definition enc_N (n : N) : string :=
  match n with
  | N0 => "z"
  | Npos p => String "p" (enc_pos p)
  end.

Definition dec_N (s : string) : N :=
  match s with
  | String c rest => if Ascii.eqb c "p" then Npos (dec_pos rest) else N0
  | EmptyString => N0
  end.

Definition enc_Z (z : Z) : string :=
  match z with
  | Z0 => "z"
  | Zpos p => String "p" (enc_pos p)
  | Zneg p => String "n" (enc_pos p)
  end.

Definition dec_Z (s : string) : Z :=
  match s with
  | String c rest =>
      if Ascii.eqb c "p" then Zpos (dec_pos rest)
      else if Ascii.eqb c "n" then Zneg (dec_pos rest)
      else Z0
  | EmptyString => Z0
  end.

Definition enc_header (a : Jwt.Alg) : string :=
  match a with
  | Jwt.HS256 => "HS256"
  | Jwt.HS384 => "HS384"
  | Jwt.HS512 => "HS512"
  | Jwt.RS256 => "RS256"
  | Jwt.AlgNone => "none"
  end.

Definition dec_header (s : string) : option Jwt.Alg :=
  if s =? "HS256" then Some Jwt.HS256
  else if s =? "HS384" then Some Jwt.HS384
  else if s =? "HS512" then Some Jwt.HS512
  else if s =? "RS256" then Some Jwt.RS256
  else if s =? "none" then Some Jwt.AlgNone
  else None.

Definition enc_payload (p : Jwt.Payload) : string :=
  enc_N (Jwt.id (Jwt.claims p)) ++ "_" ++
  enc_string (Jwt.name (Jwt.claims p)) ++ "_" ++
  enc_string (Jwt.email (Jwt.claims p)) ++ "_" ++
  enc_Z (Jwt.iat p) ++ "_" ++ enc_Z (Jwt.exp p).

Definition dec_payload (s : string) : option Jwt.Payload :=
  match Str.split "_" s with
  | [i; n; e; a; x] =>
      Some (Jwt.mkPayload
              (Jwt.mkClaims (dec_N i) (dec_string n) (dec_string e))
              (dec_Z a) (dec_Z x))
  | _ => None
  end.

(** A keyed tag over the algorithm, the key and the signing input. *)
Definition tag (a : Jwt.Alg) (key input : string) : string :=
  String "t" (enc_string (enc_header a ++ key ++ "|" ++ input)).

#[export] Instance codec : Jwt.Codec := {
  Jwt.encode_header := enc_header;
  Jwt.decode_header := dec_header;
  Jwt.encode_payload := enc_payload;
  Jwt.decode_payload := dec_payload;
  Jwt.mac := tag
}.

(** A hash string is the salt, a dollar sign and the encoded password. *)
Definition toy_hash (password salt : string) : string :=
  salt ++ "$" ++ enc_string password.

Definition toy_compare (password hash : string) : bool :=
  match Str.split "$" hash with
  | [_; d] => d =? enc_string password
  | _ => false
  end.

#[export] Instance kdf : Bcrypt.Kdf := {
  Bcrypt.hashSync := toy_hash;
  Bcrypt.compareSync := toy_compare
}.

(** The scenario of the specification. *)
Definition ada : Auth.Body :=
  Auth.mkBody (Some "Ada") (Some "ada@example.com") (Some "secret123").

Definition env : Env :=
  mkEnv (Some "s3cret") (Some "mongodb://localhost/finverse") None (Some "k").

Definition env_without_secret : Env :=
  mkEnv None (Some "mongodb://localhost/finverse") None (Some "k").

Definition world : Auth.World := Auth.mkWorld 1700000000000 "salt".

Definition empty (unique : bool) : User.Collection :=
  User.mkCollection [] 1%N unique.

(** The collection after Ada has registered. *)
Definition with_ada (unique : bool) : User.Collection :=
  fst (Auth.register env world ada (empty unique)).

(** The token Ada got. *)
Definition ada_token : string :=
  match Jwt.sign (Jwt.mkClaims 1%N "Ada" "ada@example.com") (Some "s3cret")
          1700000000000 with
  | Ok t => t
  | Throw _ => EmptyString
  end.

Definition bearer (token : string) : Auth.Request :=
  Auth.mkRequest (Some ("Bearer " ++ token))
    (Auth.mkBody None None None).

End Toy.

(* ================================================================== *)
(** * The auth router, one request after another *)
(* ================================================================== *)

Module Api.

Import Auth.

(** A request to one of the three routes of routes/auth.js, with what
    its handler reads from outside. *)
Inductive Call : Type :=
| PostRegister (w : World) (b : Body)
| PostLogin (w : World) (b : Body)
| GetMe (w : World) (req : Request).

Definition serve `{Jwt.Codec} `{Bcrypt.Kdf} (env : Env)
    (db : User.Collection) (c : Call) : User.Collection * result Response :=
  match c with
  | PostRegister w b => register env w b db
  | PostLogin w b => login env w b db
  | GetMe w req => me env w req db
  end.

(** The collection after a list of requests, each handled to its
    answer before the next one starts. *)
Definition serve_all `{Jwt.Codec} `{Bcrypt.Kdf} (env : Env)
    (calls : list Call) (db : User.Collection) : User.Collection :=
  fold_left (fun d c => fst (serve env d c)) calls db.

Definition emails (db : User.Collection) : list string :=
  map User.email (User.documents db).

End Api.

(* ================================================================== *)
(** * The browser side: the callers of the routes *)
(* ================================================================== *)

Module Client.

(** [Number.prototype.toString] is kept abstract. *)
Class NumberToString : Type := number_toString : Z -> string.

Fixpoint join (sep : string) (parts : list string) : string :=
  match parts with
  | [] => EmptyString
  | [p] => p
  | p :: rest => p ++ sep ++ join sep rest
  end.

(** [String(j)]: an array prints its elements separated by commas,
    [null] elements as nothing; an object prints as a fixed text. *)
Fixpoint js_string `{NumberToString} (j : json) : string :=
  match j with
  | JNull => "null"
  | JBool true => "true"
  | JBool false => "false"
  | JNum n => number_toString n
  | JStr s => s
  | JArr items =>
      join ","
        (map (fun x => match x with
                       | JNull => EmptyString
                       | _ => js_string x
                       end) items)
  | JObj _ => "[object Object]"
  end.

(** [String(v)], as [localStorage.setItem], [alert] and template
    literals apply it. *)
Definition to_string `{NumberToString} (v : value) : string :=
  match v with
  | Some j => js_string j
  | None => "undefined"
  end.

(** [data.k]: reading a property of [null] throws. *)
Definition member (k : string) (data : json) : result value :=
  match data with
  | JNull => Throw "Cannot read properties of null"
  | _ => Ok (prop k (Some data))
  end.

(** What the pages keep outside themselves: the [token] entry of
    [localStorage] ([None] when there is none), the router's location,
    the [user] state of App and of Layout, and the alerts shown. *)
Record Browser : Type := mkBrowser {
  token : option string;
  location : string;
  app_user : value;
  layout_user : value;
  alerts : list string
}.

Definition setItem (t : string) (br : Browser) : Browser :=
  mkBrowser (Some t) (location br) (app_user br) (layout_user br) (alerts br).

Definition removeItem (br : Browser) : Browser :=
  mkBrowser None (location br) (app_user br) (layout_user br) (alerts br).

Definition navigate (path : string) (br : Browser) : Browser :=
  mkBrowser (token br) path (app_user br) (layout_user br) (alerts br).

Definition alert (m : string) (br : Browser) : Browser :=
  mkBrowser (token br) (location br) (app_user br) (layout_user br)
    (alerts br ++ [m]).

Definition set_app_user (u : value) (br : Browser) : Browser :=
  mkBrowser (token br) (location br) u (layout_user br) (alerts br).

Definition set_layout_user (u : value) (br : Browser) : Browser :=
  mkBrowser (token br) (location br) (app_user br) u (alerts br).

(** What [fetch] gives: a rejection, or a response with its status and
    the result of [res.json()] ([None] when the body is not JSON). *)
Inductive Fetch : Type :=
| FetchFailed
| FetchResponse (code : Z) (data : option json).

Definition fetch (f : Fetch) : result (Z * option json) :=
  match f with
  | FetchFailed => Throw "Failed to fetch"
  | FetchResponse code data => Ok (code, data)
  end.

(** [res.ok] *)
Definition ok (code : Z) : bool := ((200 <=? code) && (code <=? 299))%Z.

(** [await res.json()] *)
Definition res_json (data : option json) : result json :=
  match data with
  | Some j => Ok j
  | None => Throw "Unexpected token in JSON"
  end.

(** [handleSubmit] of pages/Login.jsx, with the form state [email] and
    [password]; [net] is what the login endpoint does with the body
    sent. *)
Definition login_handleSubmit `{NumberToString} (net : json -> Fetch)
    (email password : string) (br : Browser) : Browser :=
  try (
    res <- fetch (net (JObj [("email", JStr email);
                             ("password", JStr password)])) ;;
    data <- res_json (snd res) ;;
    if ok (fst res) then
      t <- member "token" data ;;
      Ok (navigate "/" (setItem (to_string t) br))
    else
      m <- member "message" data ;;
      Ok (alert (to_string (or_else m (Some (JStr "Invalid credentials")))) br)
  ) catch (fun _ => alert "Server error. Please try again." br).

(** [handleSubmit] of pages/Register.jsx. *)
Definition register_handleSubmit `{NumberToString} (net : json -> Fetch)
    (name email password : string) (br : Browser) : Browser :=
  try (
    res <- fetch (net (JObj [("name", JStr name);
                             ("email", JStr email);
                             ("password", JStr password)])) ;;
    data <- res_json (snd res) ;;
    if ok (fst res) then
      t <- member "token" data ;;
      u <- member "user" data ;;
      Ok (navigate "/dashboard"
            (set_app_user u (setItem (to_string t) br)))
    else
      m <- member "message" data ;;
      Ok (alert (to_string (or_else m (Some (JStr "Registration failed")))) br)
  ) catch (fun _ => alert "Server error. Please try again." br).

(** [handleLogout] of components/Sidebar.jsx. *)
Definition handleLogout (br : Browser) : Browser :=
  navigate "/login" (set_layout_user (Some JNull) (removeItem br)).

(** An object with string values, its properties in insertion order. *)
Definition Headers := list (string * string).

Fixpoint set_property (k v : string) (o : Headers) : Headers :=
  match o with
  | [] => [(k, v)]
  | (k', v') :: rest =>
      if k' =? k then (k, v) :: rest else (k', v') :: set_property k v rest
  end.

(** [{ ...o, ...extra }] *)
Definition spread (o extra : Headers) : Headers :=
  fold_left (fun acc kv => set_property (fst kv) (snd kv) acc) extra o.

(** [authHeaders(extra)] of the api helper. *)
Definition authHeaders (br : Browser) (extra : Headers) : Headers :=
  spread
    (spread [("Content-Type", "application/json")]
       (if falsy_str (token br) then []
        else [("Authorization", "Bearer " ++ Auth.str (token br))]))
    extra.

Definition lower (c : ascii) : ascii :=
  let n := nat_of_ascii c in
  if ((65 <=? n) && (n <=? 90))%nat then ascii_of_nat (n + 32) else c.

Fixpoint same_name (a b : string) : bool :=
  match a, b with
  | EmptyString, EmptyString => true
  | String x a', String y b' => Ascii.eqb (lower x) (lower y) && same_name a' b'
  | _, _ => false
  end.

(** The white space HTTP removes around a header value: tab, line
    feed, carriage return and space. *)
Definition http_space (c : ascii) : bool :=
  let n := nat_of_ascii c in
  ((n =? 9) || (n =? 10) || (n =? 13) || (n =? 32))%nat.

Fixpoint strip_start (s : string) : string :=
  match s with
  | EmptyString => EmptyString
  | String c rest => if http_space c then strip_start rest else s
  end.

Fixpoint strip_end (s : string) : string :=
  match s with
  | EmptyString => EmptyString
  | String c rest =>
      match strip_end rest with
      | EmptyString => if http_space c then EmptyString
                       else String c EmptyString
      | kept => String c kept
      end
  end.

(** A header value as it arrives: without the white space before and
    after it. *)
Definition normalize (v : string) : string := strip_start (strip_end v).

(** What the server reads as [req.headers[name]] when the request was
    sent with these headers, each name sent once: header names match
    without regard to case, and the value arrives normalized.  (A
    value that [fetch] refuses, one with a NUL, a line break inside or
    a character above U+00FF, sends no request and is outside this
    function.) *)
Fixpoint received (name : string) (h : Headers) : option string :=
  match h with
  | [] => None
  | (k, v) :: rest =>
      if same_name k name then Some (normalize v) else received name rest
  end.

(** The request the auth router sees for a GET with these headers. *)
Definition get_request (h : Headers) : Auth.Request :=
  Auth.mkRequest (received "authorization" h) (Auth.mkBody None None None).

(** A string property of a parsed JSON body. *)
Definition string_field (k : string) (j : json) : option string :=
  match prop k (Some j) with
  | Some (JStr s) => Some s
  | _ => None
  end.

(** [req.body] of the auth routes for a JSON body whose fields are
    strings. *)
Definition body_of (j : json) : Auth.Body :=
  Auth.mkBody (string_field "name" j) (string_field "email" j)
    (string_field "password" j).

(** What the browser gets for an answer of the server.  An error that
    no handler caught leaves the request without an answer; this is
    taken as a failed fetch. *)
Definition delivered (r : result Response) : Fetch :=
  match r with
  | Ok resp => FetchResponse (status resp) (Some (body resp))
  | Throw _ => FetchFailed
  end.

(** The login form submitted to the server. *)
Definition login_at `{Jwt.Codec} `{Bcrypt.Kdf} `{NumberToString}
    (env : Env) (w : Auth.World) (db : User.Collection)
    (email password : string) (br : Browser) : Browser :=
  login_handleSubmit
    (fun sent => delivered (snd (Auth.login env w (body_of sent) db)))
    email password br.

(** The register form submitted to the server: the collection and the
    browser afterwards. *)
Definition register_at `{Jwt.Codec} `{Bcrypt.Kdf} `{NumberToString}
    (env : Env) (w : Auth.World) (db : User.Collection)
    (name email password : string) (br : Browser)
    : User.Collection * Browser :=
  let served := fun sent => Auth.register env w (body_of sent) db in
  (fst (served (JObj [("name", JStr name);
                      ("email", JStr email);
                      ("password", JStr password)])),
   register_handleSubmit (fun sent => delivered (snd (served sent)))
     name email password br).

(** [JSON.parse(atob(s))] is kept abstract. *)
Class Atob : Type := parse_atob : string -> result json.

(** A [localStorage] entry inside a template literal: a missing entry
    is [null]. *)
Definition item_string (t : option string) : string :=
  match t with
  | Some s => s
  | None => "null"
  end.

(** The effect of components/Layout.jsx, run when the layout mounts;
    [net] is what the me endpoint answers to an authorization header. *)
Definition layout_effect `{NumberToString} `{Atob} (net : string -> Fetch)
    (br : Browser) : Browser :=
  if negb (falsy_str (token br)) then
    try (
      payload <- parse_atob
                   (to_string
                      (option_map JStr
                         (nth_error (Str.split "." (Auth.str (token br))) 1))) ;;
      n <- member "name" payload ;;
      e <- member "email" payload ;;
      Ok (set_layout_user
            (Some (JObj (field "name" (or_else n (Some (JStr "User")))
                         ++ field "email"
                              (or_else e (Some (JStr "example@email.com"))))))
            br)
    ) catch (fun _ => br)
  else
    try (
      res <- fetch (net ("Bearer " ++ item_string (token br))) ;;
      data <- (if ok (fst res) then res_json (snd res) else Ok JNull) ;;
      let user := prop "user" (Some data) in
      if truthy user then
        Ok (set_layout_user
              (Some (JObj (field "name" (prop "name" user)
                           ++ field "email" (prop "email" user))))
              br)
      else Ok br
    ) catch (fun _ => br).

(** The layout mounted against the server. *)
Definition layout_at `{Jwt.Codec} `{NumberToString} `{Atob}
    (env : Env) (w : Auth.World) (db : User.Collection) (br : Browser)
    : Browser :=
  layout_effect
    (fun header =>
       delivered
         (snd (Auth.me env w
                 (Auth.mkRequest (Some header) (Auth.mkBody None None None))
                 db)))
    br.

(** The state of components/ChatbotPanel.jsx; a message is its role
    and its text. *)
Record Panel : Type := mkPanel {
  input : string;
  messages : list (string * value);
  loading : bool
}.

(** A string that [trim()] empties: only white space and line
    terminators, in their UTF-8 encodings. *)
Fixpoint blank (s : string) : bool :=
  match s with
  | EmptyString => true
  | String a rest =>
      let x := nat_of_ascii a in
      if ((x =? 32) || ((9 <=? x) && (x <=? 13)))%nat then blank rest
      else
        match rest with
        | EmptyString => false
        | String b rest2 =>
            let y := nat_of_ascii b in
            if ((x =? 194) && (y =? 160))%nat then blank rest2
            else
              match rest2 with
              | EmptyString => false
              | String c rest3 =>
                  let z := nat_of_ascii c in
                  if (((x =? 225) && (y =? 154) && (z =? 128))
                      || ((x =? 226) && (y =? 128)
                          && (((128 <=? z) && (z <=? 138))
                              || (z =? 168) || (z =? 169) || (z =? 175)))
                      || ((x =? 226) && (y =? 129) && (z =? 159))
                      || ((x =? 227) && (y =? 128) && (z =? 128))
                      || ((x =? 239) && (y =? 187) && (z =? 191)))%nat
                  then blank rest3
                  else false
              end
        end
  end.

Definition panel_error : string := "⚠️ Error contacting Gemini API.".

(** [sendMessage]; [net] is what the chat endpoint does with the body
    sent. *)
Definition sendMessage (net : json -> Chatbot.Upstream) (p : Panel) : Panel :=
  if blank (input p) then p
  else
    let userMsg := ("user", Some (JStr (input p))) in
    let shown := (messages p ++ [userMsg])%list in
    try (
      data <- Chatbot.axios_post (net (JObj [("message", JStr (input p))])) ;;
      reply <- member "reply" data ;;
      Ok (mkPanel EmptyString (shown ++ [userMsg; ("bot", reply)])%list false)
    ) catch (fun _ =>
      mkPanel (input p) (shown ++ [("bot", Some (JStr panel_error))])%list
        false).

(** The panel talking to the relay. *)
Definition sendMessage_at (env : Env)
    (provider : string -> json -> Chatbot.Upstream) (p : Panel) : Panel :=
  sendMessage
    (fun sent =>
       let r := Chatbot.relay env provider (Some sent) in
       Chatbot.HttpResponse (status r) (body r))
    p.

End Client.

(** Stand-ins for the two browser primitives, to run the pages on. *)
Module ToyClient.

#[export] Instance number_text : Client.NumberToString :=
  fun n => HexString.of_Z n.

#[export] Instance atob : Client.Atob :=
  fun s =>
    match Toy.dec_payload s with
    | Some p =>
        Ok (JObj [("id", User.id_json (Jwt.id (Jwt.claims p)));
                  ("name", JStr (Jwt.name (Jwt.claims p)));
                  ("email", JStr (Jwt.email (Jwt.claims p)))])
    | None => Throw "The string to be decoded is not correctly encoded"
    end.

Definition fresh : Client.Browser :=
  Client.mkBrowser None "/login" (Some JNull) (Some JNull) [].

(** A port check that lets every other string pass. *)
#[export] Instance ports : Startup.PortCheck := fun _ => false.

End ToyClient.

(* ================================================================== *)
(** * Facts about the string helpers *)
(* ================================================================== *)

Module StrFacts.

Lemma split_lacks (sep : ascii) (s : string) :
  Str.lacks sep s = true -> Str.split sep s = [s].
Proof.
  induction s as [|c s IH]; simpl; intros Hs.
  - reflexivity.
  - apply andb_true_iff in Hs as [Hc Hrest].
    apply negb_true_iff in Hc. rewrite Hc, (IH Hrest). reflexivity.
Qed.

Lemma split_app (sep : ascii) (a b : string) :
  Str.lacks sep a = true ->
  Str.split sep (a ++ String sep b) = a :: Str.split sep b.
Proof.
  induction a as [|c a IH]; simpl; intros Ha.
  - rewrite Ascii.eqb_refl. reflexivity.
  - apply andb_true_iff in Ha as [Hc Hrest].
    apply negb_true_iff in Hc. rewrite Hc, (IH Hrest). reflexivity.
Qed.

Lemma lacks_app (sep : ascii) (a b : string) :
  Str.lacks sep (a ++ b) = Str.lacks sep a && Str.lacks sep b.
Proof.
  induction a as [|c a IH]; simpl.
  - reflexivity.
  - rewrite IH. apply andb_assoc.
Qed.

Lemma app_assoc (a b c : string) : (a ++ b) ++ c = a ++ (b ++ c).
Proof.
  induction a as [|x a IH]; simpl; [reflexivity | now rewrite IH].
Qed.

(** Three dot-free segments joined by dots split into those segments. *)
Lemma split_three (h p s : string) :
  Str.lacks "." h = true -> Str.lacks "." p = true ->
  Str.lacks "." s = true ->
  Str.split "." ((h ++ "." ++ p) ++ "." ++ s) = [h; p; s].
Proof.
  intros Hh Hp Hs.
  rewrite app_assoc. simpl.
  rewrite (split_app "." h _ Hh).
  change (String "." (p ++ String "." s)) with ("." ++ p ++ String "." s).
  simpl. rewrite (split_app "." p s Hp), (split_lacks "." s Hs).
  reflexivity.
Qed.

Lemma app_not_empty (a b : string) (c : ascii) :
  (a ++ String c b =? EmptyString) = false.
Proof.
  destruct a; reflexivity.
Qed.

Lemma slice_bearer (t : string) : Str.slice 7 ("Bearer " ++ t) = t.
Proof. reflexivity. Qed.

Lemma startsWith_bearer (t : string) :
  Str.startsWith "Bearer " ("Bearer " ++ t) = true.
Proof.
  unfold Str.startsWith. simpl.
  repeat (destruct (ascii_dec _ _) as [_|Hne]; [|now elim Hne]).
  destruct t; reflexivity.
Qed.

End StrFacts.

(* ================================================================== *)
(** * The executable codec satisfies the codec laws *)
(* ================================================================== *)

Module ToyFacts.

Import Toy.

Lemma unbit_bit (b : bool) : unbit (bit b) = b.
Proof. destruct b; reflexivity. Qed.

Lemma dec_enc_string (s : string) : dec_string (enc_string s) = s.
Proof.
  induction s as [|[b0 b1 b2 b3 b4 b5 b6 b7] s IH]; simpl.
  - reflexivity.
  - rewrite !unbit_bit, IH. reflexivity.
Qed.

Lemma dec_enc_pos (p : positive) : dec_pos (enc_pos p) = p.
Proof.
  induction p as [p IH|p IH|]; simpl; try rewrite IH; reflexivity.
Qed.

Lemma dec_enc_N (n : N) : dec_N (enc_N n) = n.
Proof.
  destruct n as [|p]; simpl; [reflexivity | now rewrite dec_enc_pos].
Qed.

Lemma dec_enc_Z (z : Z) : dec_Z (enc_Z z) = z.
Proof.
  destruct z as [|p|p]; simpl; try rewrite dec_enc_pos; reflexivity.
Qed.

Section Alphabet.

(** A separator that is neither of the two digits. *)
Variable sep : ascii.
Hypothesis sep_not_0 : Ascii.eqb "0" sep = false.
Hypothesis sep_not_1 : Ascii.eqb "1" sep = false.

Lemma bit_not_sep (b : bool) : Ascii.eqb (bit b) sep = false.
Proof. destruct b; assumption. Qed.

Lemma lacks_enc_string (s : string) : Str.lacks sep (enc_string s) = true.
Proof.
  induction s as [|[b0 b1 b2 b3 b4 b5 b6 b7] s IH]; simpl.
  - reflexivity.
  - rewrite !bit_not_sep, IH. reflexivity.
Qed.

Lemma lacks_enc_pos (p : positive) : Str.lacks sep (enc_pos p) = true.
Proof.
  induction p as [p IH|p IH|]; cbn [enc_pos Str.lacks];
    rewrite ?sep_not_0, ?sep_not_1, ?IH; reflexivity.
Qed.

Lemma lacks_enc_N (n : N) :
  Ascii.eqb "z" sep = false -> Ascii.eqb "p" sep = false ->
  Str.lacks sep (enc_N n) = true.
Proof.
  intros Hz Hp. destruct n as [|p]; cbn [enc_N Str.lacks].
  - now rewrite Hz.
  - now rewrite Hp, lacks_enc_pos.
Qed.

Lemma lacks_enc_Z (z : Z) :
  Ascii.eqb "z" sep = false -> Ascii.eqb "p" sep = false ->
  Ascii.eqb "n" sep = false ->
  Str.lacks sep (enc_Z z) = true.
Proof.
  intros Hz Hp Hn. destruct z as [|p|p]; cbn [enc_Z Str.lacks].
  - now rewrite Hz.
  - now rewrite Hp, lacks_enc_pos.
  - now rewrite Hn, lacks_enc_pos.
Qed.

End Alphabet.

Lemma dec_enc_header (a : Jwt.Alg) : dec_header (enc_header a) = Some a.
Proof. destruct a; reflexivity. Qed.

Lemma dec_enc_payload (p : Jwt.Payload) : dec_payload (enc_payload p) = Some p.
Proof.
  destruct p as [[i n e] a x]. unfold dec_payload, enc_payload. simpl.
  rewrite StrFacts.split_app by (now apply lacks_enc_N).
  rewrite StrFacts.split_app by (now apply lacks_enc_string).
  rewrite StrFacts.split_app by (now apply lacks_enc_string).
  rewrite StrFacts.split_app by (now apply lacks_enc_Z).
  rewrite StrFacts.split_lacks by (now apply lacks_enc_Z).
  rewrite dec_enc_N, !dec_enc_string, !dec_enc_Z. reflexivity.
Qed.

Lemma enc_payload_lacks_dot (p : Jwt.Payload) :
  Str.lacks "." (enc_payload p) = true.
Proof.
  unfold enc_payload.
  rewrite !StrFacts.lacks_app.
  rewrite lacks_enc_N, !lacks_enc_string, !lacks_enc_Z by reflexivity.
  reflexivity.
Qed.

Lemma codec_laws : Jwt.CodecLaws codec.
Proof.
  constructor; simpl.
  - exact dec_enc_header.
  - exact dec_enc_payload.
  - intros a; destruct a; reflexivity.
  - exact enc_payload_lacks_dot.
  - intros a k m. unfold tag. simpl. now apply lacks_enc_string.
  - intros a k m. reflexivity.
Qed.

End ToyFacts.

(* ================================================================== *)
(** * The chat relay *)
(* ================================================================== *)

Module ChatbotFacts.

Import Chatbot.

Lemma axios_post_failed (up : Upstream) :
  failed up = true -> exists e, axios_post up = Throw e.
Proof.
  destruct up as [m|code data]; simpl; intros H.
  - now exists m.
  - apply negb_true_iff in H. rewrite H. eauto.
Qed.

Lemma axios_post_success (code : Z) (data : json) :
  ((200 <=? code) && (code <? 300))%Z = true ->
  axios_post (HttpResponse code data) = Ok data.
Proof. simpl. now intros ->. Qed.

(** C4, as stated, fails: when the provider cannot be reached the relay
    answers with status 500 and an [error] property; the answer has no
    [reply] property at all, so it is not the fallback reply. *)
Lemma relay_transport_failure_is_not_fallback :
  let r := relay Toy.env (fun _ _ => TransportFailure "ECONNREFUSED")
             (Some (JObj [("message", JStr "hello")])) in
  r = mkResponse 500
        (JObj [("error",
                JStr "Chatbot failed to respond. Check API key or model endpoint.")])
  /\ prop "reply" (Some (body r)) = None
  /\ r <> res_json (JObj [("reply", JStr "Sorry, I couldn't generate a response.")]).
Proof.
  cbv zeta. repeat split. discriminate.
Qed.

(** C4, amended: the relay always answers and never throws.  When the
    provider is unreachable or answers with a non-success status, the
    answer is status 500 with the fixed text [failure_text] under
    [error], whatever the provider's error was.  When the provider
    answers with a success whose body has no first textual candidate,
    the answer is status 200 with the fixed fallback reply under
    [reply] (written with a typographic apostrophe). *)
Theorem relay_outcomes (env : Env) (net : string -> json -> Upstream)
    (b : json) :
  let up := net (url env) (payload (prop "message" (Some b))) in
  let failure :=
    mkResponse 500
      (JObj [("error",
              JStr "Chatbot failed to respond. Check API key or model endpoint.")]) in
  (failed up = true -> relay env net (Some b) = failure)
  /\ (success_without_text up = true ->
      relay env net (Some b)
      = mkResponse 200
          (JObj [("reply", JStr "Sorry, I couldn’t generate a response.")]))
  /\ (forall req_body,
        status (relay env net req_body) = 200%Z
        \/ relay env net req_body = failure).
Proof.
  cbv zeta. split; [|split].
  - intros H. unfold relay. cbn [bind].
    destruct (axios_post_failed _ H) as [e ->]. reflexivity.
  - intros H. unfold relay. cbn [bind].
    destruct (net _ _) as [m|code data]; [discriminate|].
    simpl in H. apply andb_true_iff in H as [Hcode Htext].
    rewrite (axios_post_success _ _ Hcode). simpl.
    apply negb_true_iff in Htext. unfold or_else. rewrite Htext.
    reflexivity.
  - intros [b'|]; [|right; reflexivity].
    unfold relay. cbn [bind].
    destruct (axios_post _) as [data|e]; [left|right]; reflexivity.
Qed.

Lemma relay_outcomes_witness :
  relay Toy.env (fun _ _ => HttpResponse 503 (JStr "overloaded"))
    (Some (JObj [("message", JStr "hello")])) = failure_response
  /\ relay Toy.env (fun _ _ => HttpResponse 200 (JObj [("candidates", JArr [])]))
       (Some (JObj [("message", JStr "hello")]))
     = res_json (JObj [("reply", JStr fallback_reply)]).
Proof.
  split.
  - apply (proj1 (relay_outcomes Toy.env
             (fun _ _ => HttpResponse 503 (JStr "overloaded"))
             (JObj [("message", JStr "hello")]))).
    reflexivity.
  - apply (proj1 (proj2 (relay_outcomes Toy.env
             (fun _ _ => HttpResponse 200 (JObj [("candidates", JArr [])]))
             (JObj [("message", JStr "hello")])))).
    reflexivity.
Defined.

(** A candidate with text is passed on as the reply. *)
Example relay_passes_text :
  relay Toy.env
    (fun _ _ => HttpResponse 200
       (JObj [("candidates",
               JArr [JObj [("content",
                            JObj [("parts",
                                   JArr [JObj [("text", JStr "Save more.")]])])]])]))
    (Some (JObj [("message", JStr "hello")]))
  = res_json (JObj [("reply", JStr "Save more.")]).
Proof. reflexivity. Qed.

End ChatbotFacts.

(* ================================================================== *)
(** * Tokens: issue, verify, and what makes a token bad *)
(* ================================================================== *)

Module JwtFacts.

Import Jwt.

Lemma clockTimestamp_mono (t t' : Z) :
  (t <= t')%Z -> (clockTimestamp t <= clockTimestamp t')%Z.
Proof.
  intros H. unfold clockTimestamp. apply Z.div_le_mono; lia.
Qed.

Section WithCodec.

Context `{C : Codec}.

(** The compact serialisation [sign] writes for a payload. *)
Lemma sign_eq (c : Claims) (key : string) (issued : Z) :
  key <> EmptyString ->
  let payload := mkPayload c (clockTimestamp issued)
                   (clockTimestamp issued + expiresIn_7d) in
  let input := encode_header HS256 ++ "." ++ encode_payload payload in
  sign c (Some key) issued = Ok (input ++ "." ++ mac HS256 key input).
Proof.
  intros Hkey. cbv zeta. unfold sign.
  apply String.eqb_neq in Hkey. rewrite Hkey. reflexivity.
Qed.

(** A bad token does not verify, now or at any later time. *)
Lemma verify_bad (secret : option string) (now now' : Z) (t : string) :
  Bad secret now t -> (now <= now')%Z ->
  exists e, verify t secret now' = Throw e.
Proof.
  intros Hbad Hle. unfold verify.
  destruct (t =? EmptyString); [eauto|].
  destruct Hbad as [t Hparts | t h p s Hsplit Hdec
                   | t h p s alg Hsplit Hhdr Hsig
                   | t h p s payload Hsplit Hpay Hexp].
  - destruct (Str.split "." t) as [|h [|p [|s [|x rest]]]]; eauto.
    now elim (Hparts h p s).
  - rewrite Hsplit.
    destruct Hdec as [-> | Hp]; [eauto|].
    rewrite Hp. destruct (decode_header h); eauto.
  - rewrite Hsplit, Hhdr.
    destruct (decode_payload p) as [payload|]; [|eauto].
    destruct (Str.blank s), (falsy_str secret); cbn [negb andb]; eauto.
    destruct (is_hmac alg); cbn [negb]; [|eauto].
    apply String.eqb_neq in Hsig. rewrite Hsig. cbn [negb]. eauto.
  - rewrite Hsplit, Hpay.
    destruct (decode_header h) as [alg|]; [|eauto].
    destruct (Str.blank s), (falsy_str secret); cbn [negb andb]; eauto.
    destruct (is_hmac alg); cbn [negb]; [|eauto].
    destruct (negb _); [eauto|].
    pose proof (clockTimestamp_mono _ _ Hle) as Hmono.
    replace (clockTimestamp now' >=? exp payload)%Z with true; [eauto|].
    symmetry. rewrite Z.geb_leb. apply Z.leb_le. lia.
Qed.

(** A token that fails verification fails it at every later time: the
    clock is read for the expiry only. *)
Lemma verify_throw_stable (secret : option string) (now now' : Z)
    (t e : string) :
  verify t secret now = Throw e -> (now <= now')%Z ->
  exists e', verify t secret now' = Throw e'.
Proof.
  unfold verify. intros Hthrow Hle.
  destruct (t =? EmptyString); [eauto|].
  destruct (Str.split "." t) as [|h [|p [|s [|x rest]]]]; eauto.
  destruct (decode_header h) as [alg|]; [|eauto].
  destruct (decode_payload p) as [payload|]; [|eauto].
  destruct (negb (Str.blank s) && negb (falsy_str secret)) eqn:Hsigned.
  - apply andb_true_iff in Hsigned as [Hs Hk]. revert Hthrow.
    rewrite Hs, Hk. cbn [negb andb].
    destruct (negb (is_hmac alg)); [eauto|].
    destruct (negb (s =? _)); [eauto|].
    destruct (clockTimestamp now >=? exp payload)%Z eqn:Hexp;
      [|discriminate].
    intros _. pose proof (clockTimestamp_mono _ _ Hle) as Hmono.
    rewrite Z.geb_leb in Hexp. apply Z.leb_le in Hexp.
    replace (clockTimestamp now' >=? exp payload)%Z with true; [eauto|].
    symmetry. rewrite Z.geb_leb. apply Z.leb_le. lia.
  - destruct (Str.blank s), (falsy_str secret); cbn [negb andb] in *;
      try discriminate Hsigned; eauto.
Qed.

Context (L : CodecLaws C).

(** A token signed under a key verifies under that key until it
    expires. *)
Lemma verify_signed (payload : Payload) (key : string) (now : Z) :
  key <> EmptyString ->
  (clockTimestamp now < exp payload)%Z ->
  let input := encode_header HS256 ++ "." ++ encode_payload payload in
  verify (input ++ "." ++ mac HS256 key input) (Some key) now = Ok payload.
Proof.
  intros Hkey Hexp. cbv zeta. unfold verify.
  change ("." ++ mac HS256 key ?x) with (String "." (mac HS256 key x)).
  rewrite StrFacts.app_not_empty.
  change (String "." (mac HS256 key ?x)) with ("." ++ mac HS256 key x).
  rewrite StrFacts.split_three
    by (apply header_lacks_dot || apply payload_lacks_dot
        || apply mac_lacks_dot).
  rewrite decode_encode_header, decode_encode_payload, mac_not_blank.
  simpl falsy_str. apply String.eqb_neq in Hkey. rewrite Hkey.
  cbn [negb andb is_hmac]. rewrite String.eqb_refl. cbn [negb].
  replace (clockTimestamp now >=? exp payload)%Z with false; [reflexivity|].
  symmetry. rewrite Z.geb_leb. apply Z.leb_gt. lia.
Qed.

(** C2: a token issued by [jwt.sign] under the server secret with the
    seven-day expiry verifies under the same secret immediately after
    issuance, and at any time before its expiry; the decoded payload
    carries exactly the claims [{id, name, email}] that were signed
    (with the issue and expiry times [sign] added). *)
Theorem sign_verify_roundtrip (c : Claims) (key : string)
    (issued checked : Z) :
  key <> EmptyString ->
  (clockTimestamp checked < clockTimestamp issued + expiresIn_7d)%Z ->
  exists token decoded,
    sign c (Some key) issued = Ok token
    /\ verify token (Some key) issued = Ok decoded
    /\ verify token (Some key) checked = Ok decoded
    /\ claims decoded = c
    /\ iat decoded = clockTimestamp issued
    /\ exp decoded = (clockTimestamp issued + 604800)%Z.
Proof.
  intros Hkey Hwindow.
  eexists.
  exists (mkPayload c (clockTimestamp issued)
            (clockTimestamp issued + expiresIn_7d)).
  split; [apply (sign_eq c key issued Hkey)|].
  split; [|split; [|split; [|split]]]; try reflexivity.
  - apply verify_signed; [assumption|]. simpl. unfold expiresIn_7d. lia.
  - apply verify_signed; assumption.
Qed.

End WithCodec.

#[local] Existing Instance Toy.codec.

Lemma sign_verify_roundtrip_witness :
  exists token decoded,
    sign (mkClaims 1%N "Ada" "ada@example.com") (Some "s3cret") 1700000000000
      = Ok token
    /\ verify token (Some "s3cret") 1700000000000 = Ok decoded
    /\ verify token (Some "s3cret") 1700000000999 = Ok decoded
    /\ claims decoded = mkClaims 1%N "Ada" "ada@example.com"
    /\ iat decoded = clockTimestamp 1700000000000
    /\ exp decoded = (clockTimestamp 1700000000000 + 604800)%Z.
Proof.
  apply (sign_verify_roundtrip ToyFacts.codec_laws
           (mkClaims 1%N "Ada" "ada@example.com") "s3cret"
           1700000000000 1700000000999).
  - discriminate.
  - vm_compute. reflexivity.
Defined.

End JwtFacts.

(* ================================================================== *)
(** * The session guard *)
(* ================================================================== *)

Module GuardFacts.

Import Auth.

Lemma token_of_bearer (req : Request) (t : string) :
  authorization req = Some ("Bearer " ++ t) -> token_of req = Some t.
Proof.
  intros Hh. unfold token_of. rewrite Hh.
  rewrite StrFacts.startsWith_bearer, StrFacts.slice_bearer. reflexivity.
Qed.

Lemma token_of_no_header (req : Request) :
  authorization req = None -> token_of req = None.
Proof. intros Hh. unfold token_of. rewrite Hh. reflexivity. Qed.

Section WithCodec.

Context `{C : Jwt.Codec}.

Lemma guard_missing (env : Env) (w : World) (req : Request) :
  falsy_str (token_of req) = true ->
  authMiddleware env w req = Rejected missing_token.
Proof. intros Ht. unfold authMiddleware. rewrite Ht. reflexivity. Qed.

Lemma guard_invalid (env : Env) (w : World) (req : Request)
    (t e : string) :
  token_of req = Some t -> t <> EmptyString ->
  Jwt.verify t (JWT_SECRET env) (now w) = Throw e ->
  authMiddleware env w req = Rejected invalid_token.
Proof.
  intros Ht Hne Hv. unfold authMiddleware. rewrite Ht. simpl.
  apply String.eqb_neq in Hne. rewrite Hne, Hv. reflexivity.
Qed.

Lemma guard_accepts (env : Env) (w : World) (req : Request)
    (t : string) (decoded : Jwt.Payload) :
  token_of req = Some t ->
  Jwt.verify t (JWT_SECRET env) (now w) = Ok decoded ->
  authMiddleware env w req = Next (Jwt.id (Jwt.claims decoded)).
Proof.
  intros Ht Hv. unfold authMiddleware. rewrite Ht. simpl.
  destruct (t =? EmptyString) eqn:Hempty.
  - apply String.eqb_eq in Hempty. subst t. discriminate Hv.
  - rewrite Hv. reflexivity.
Qed.

(** The middleware answers with 401 or calls [next()]. *)
Lemma guard_rejected_401 (env : Env) (w : World) (req : Request)
    (r : Response) :
  authMiddleware env w req = Rejected r -> status r = 401%Z.
Proof.
  unfold authMiddleware.
  destruct (falsy_str (token_of req)).
  - intros [= <-]. reflexivity.
  - destruct (Jwt.verify _ _ _); simpl; intros [= <-]. reflexivity.
Qed.

(** C5: the session guard answers 401 whenever the bearer token is
    absent from the authorization header (Missing token) and whenever
    the token fails verification (Invalid token), which it does when it
    is malformed, tampered or expired.  The rejection is deterministic
    and idempotent: at the first attempt and at every later retry with
    the same bad token the answer is the same 401, whatever the
    protected handler is, and the handler is not run (the collection is
    left as it was). *)
Theorem guard_rejects_bad_token (env : Env) (w : World) (req : Request) :
  (falsy_str (token_of req) = true ->
   forall (w' : World) (handler : User.ObjectId -> Async Response)
          (db : User.Collection),
     authMiddleware env w' req = Rejected missing_token
     /\ protect env w' req handler db = (db, Ok missing_token))
  /\ (forall t : string,
        token_of req = Some t -> t <> EmptyString ->
        (Jwt.Bad (JWT_SECRET env) (now w) t
         \/ exists e, Jwt.verify t (JWT_SECRET env) (now w) = Throw e) ->
        forall (w' : World) (handler : User.ObjectId -> Async Response)
               (db : User.Collection),
          (now w <= now w')%Z ->
          authMiddleware env w' req = Rejected invalid_token
          /\ protect env w' req handler db = (db, Ok invalid_token))
  /\ missing_token = mkResponse 401 (JObj [("message", JStr "Missing token")])
  /\ invalid_token = mkResponse 401 (JObj [("message", JStr "Invalid token")]).
Proof.
  split; [|split; [|split; reflexivity]].
  - intros Ht w' handler db.
    pose proof (guard_missing env w' req Ht) as Hg.
    split; [exact Hg|]. unfold protect. rewrite Hg. reflexivity.
  - intros t Ht Hne Hbad w' handler db Hle.
    assert (Hthrow : exists e, Jwt.verify t (JWT_SECRET env) (now w') = Throw e).
    { destruct Hbad as [Hbad | [e He]].
      - exact (JwtFacts.verify_bad _ _ _ _ Hbad Hle).
      - exact (JwtFacts.verify_throw_stable _ _ _ _ _ He Hle). }
    destruct Hthrow as [e He].
    pose proof (guard_invalid env w' req t e Ht Hne He) as Hg.
    split; [exact Hg|]. unfold protect. rewrite Hg. reflexivity.
Qed.

(** The guard lets through a token the routes issued, until it
    expires, and hands the signed id to the handler. *)
Lemma guard_accepts_issued (L : Jwt.CodecLaws C) (env : Env) (w w' : World)
    (req : Request) (c : Jwt.Claims) (key token : string) :
  JWT_SECRET env = Some key -> key <> EmptyString ->
  Jwt.sign c (Some key) (now w) = Ok token ->
  authorization req = Some ("Bearer " ++ token) ->
  (Jwt.clockTimestamp (now w')
   < Jwt.clockTimestamp (now w) + Jwt.expiresIn_7d)%Z ->
  authMiddleware env w' req = Next (Jwt.id c).
Proof.
  intros Hsecret Hkey Hsign Hheader Hwindow.
  rewrite (JwtFacts.sign_eq c key (now w) Hkey) in Hsign.
  injection Hsign as <-.
  apply (guard_accepts env w' req _
           (Jwt.mkPayload c (Jwt.clockTimestamp (now w))
              (Jwt.clockTimestamp (now w) + Jwt.expiresIn_7d))
           (token_of_bearer req _ Hheader)).
  rewrite Hsecret. now apply JwtFacts.verify_signed.
Qed.

End WithCodec.

#[local] Existing Instance Toy.codec.

(** An expired token, a token whose signature was cut, a string that is
    not a token, and a request without a token. *)
Lemma guard_rejects_bad_token_witness :
  let expired := Auth.mkWorld 1700604800000 "salt" in
  let later := Auth.mkWorld 1800000000000 "salt" in
  (forall handler db,
     protect Toy.env later (Toy.bearer EmptyString) handler db
     = (db, Ok missing_token))
  /\ (forall handler db,
     protect Toy.env later (Toy.bearer Toy.ada_token) handler db
     = (db, Ok invalid_token)).
Proof.
  cbv zeta. split.
  - intros handler db.
    apply (proj1 (guard_rejects_bad_token Toy.env Toy.world
                    (Toy.bearer EmptyString))).
    reflexivity.
  - intros handler db.
    refine (proj2 (proj1 (proj2 (guard_rejects_bad_token Toy.env
              (Auth.mkWorld 1700604800000 "salt")
              (Toy.bearer Toy.ada_token)))
              Toy.ada_token _ _ _
              (Auth.mkWorld 1800000000000 "salt") handler db _)).
    + reflexivity.
    + vm_compute. discriminate.
    + left.
      eapply (Jwt.Expired _ _ _ _ _ _
                (Jwt.mkPayload (Jwt.mkClaims 1%N "Ada" "ada@example.com")
                   1700000000 1700604800)).
      * vm_compute. reflexivity.
      * vm_compute. reflexivity.
      * vm_compute. discriminate.
    + simpl. lia.
Defined.

(** The guard on Ada's token while it is valid, on the same token with
    a character appended to its signature, on a string that is not a
    token, and on a header of another scheme. *)
Example guard_accepts_ada :
  authMiddleware Toy.env Toy.world (Toy.bearer Toy.ada_token) = Next 1%N.
Proof. vm_compute. reflexivity. Qed.

Example guard_rejects_tampered :
  authMiddleware Toy.env Toy.world (Toy.bearer (Toy.ada_token ++ "0"))
  = Rejected invalid_token.
Proof. vm_compute. reflexivity. Qed.

Example guard_rejects_garbage :
  authMiddleware Toy.env Toy.world (Toy.bearer "not-a-token")
  = Rejected invalid_token.
Proof. vm_compute. reflexivity. Qed.

Example guard_rejects_other_scheme :
  authMiddleware Toy.env Toy.world
    (mkRequest (Some "Basic YWRhOnNlY3JldA==") (mkBody None None None))
  = Rejected missing_token.
Proof. vm_compute. reflexivity. Qed.

End GuardFacts.

(* ================================================================== *)
(** * The user collection *)
(* ================================================================== *)

Module UserFacts.

Lemma find_none_existsb {A} (f : A -> bool) (l : list A) :
  find f l = None -> existsb f l = false.
Proof.
  induction l as [|x l IH]; simpl; [reflexivity|].
  destruct (f x); [discriminate | exact IH].
Qed.

Lemma find_snoc {A} (f : A -> bool) (l : list A) (x : A) :
  find f l = None -> f x = true -> find f (l ++ [x]) = Some x.
Proof.
  induction l as [|y l IH]; simpl; intros Hnone Hx.
  - now rewrite Hx.
  - destruct (f y); [discriminate | now apply IH].
Qed.

(** With or without a unique index, an insert under a fresh email
    appends the record. *)
Lemma create_fresh (db : User.Collection) (n e h : string) :
  User.findOne db (Some e) = None ->
  User.create db n e h
  = Ok (User.mkDoc (User.nextId db) n e h,
        User.mkCollection
          (User.documents db ++ [User.mkDoc (User.nextId db) n e h])
          (N.succ (User.nextId db)) (User.uniqueEmail db)).
Proof.
  intros Hfresh. unfold User.create.
  rewrite (find_none_existsb _ _ Hfresh), andb_false_r. reflexivity.
Qed.

Lemma findOne_created (db : User.Collection) (n e h : string) :
  User.findOne db (Some e) = None ->
  User.findOne
    (User.mkCollection
       (User.documents db ++ [User.mkDoc (User.nextId db) n e h])
       (N.succ (User.nextId db)) (User.uniqueEmail db))
    (Some e)
  = Some (User.mkDoc (User.nextId db) n e h).
Proof.
  intros Hfresh. unfold User.findOne. simpl.
  apply find_snoc; [exact Hfresh|].
  unfold User.has_email. simpl. apply String.eqb_refl.
Qed.

End UserFacts.

(* ================================================================== *)
(** * The auth routes *)
(* ================================================================== *)

Module AuthFacts.

Import Auth.

#[local] Arguments User.findOne : simpl never.
#[local] Arguments User.findById : simpl never.
#[local] Arguments User.create : simpl never.
#[local] Arguments Jwt.sign : simpl never.
#[local] Arguments Jwt.verify : simpl never.

Section WithPrimitives.

Context `{C : Jwt.Codec} `{K : Bcrypt.Kdf}.

Lemma login_unknown_email (env : Env) (w : World) (db : User.Collection)
    (b : Body) :
  User.findOne db (email b) = None ->
  login env w b db = (db, Ok invalid_credentials).
Proof.
  intros Hnone. unfold login, try_async, await, findOne. simpl.
  rewrite Hnone. reflexivity.
Qed.

Lemma login_wrong_password (env : Env) (w : World) (db : User.Collection)
    (b : Body) (u : User.Doc) (p : string) :
  User.findOne db (email b) = Some u ->
  password b = Some p ->
  Bcrypt.compareSync p (User.passwordHash u) = false ->
  login env w b db = (db, Ok invalid_credentials).
Proof.
  intros Hu Hp Hcmp. unfold login, try_async, await, findOne, lift. simpl.
  rewrite Hu, Hp. simpl. rewrite Hcmp. reflexivity.
Qed.

(** C1: over every stored user set, a login with an unknown email
    (whatever password comes with it) and a login with a registered
    email and a wrong password get the same answer, status 400 with the
    message Invalid credentials, and neither changes the collection: the
    caller cannot tell the two apart. *)
Theorem login_failures_indistinguishable (env : Env) (w w' : World)
    (db : User.Collection) (n n' unknown anything : option string)
    (known wrong : string) (u : User.Doc) :
  User.findOne db unknown = None ->
  User.findOne db (Some known) = Some u ->
  Bcrypt.compareSync wrong (User.passwordHash u) = false ->
  login env w (mkBody n unknown anything) db
  = (db, Ok (mkResponse 400 (JObj [("message", JStr "Invalid credentials")])))
  /\ login env w' (mkBody n' (Some known) (Some wrong)) db
     = login env w (mkBody n unknown anything) db.
Proof.
  intros Hnone Hu Hcmp.
  rewrite (login_unknown_email env w db (mkBody n unknown anything) Hnone).
  split; [reflexivity|].
  now apply (login_wrong_password env w' db _ u wrong).
Qed.

(** C10: for a registered email, a login whose body has no password
    gets the generic 500 Server error, not the 400 Invalid credentials:
    the hash comparison rejects an undefined password and the handler's
    [catch] answers; login checks no field for presence. *)
Theorem login_without_password (env : Env) (w : World)
    (db : User.Collection) (n : option string) (known : string)
    (u : User.Doc) :
  User.findOne db (Some known) = Some u ->
  login env w (mkBody n (Some known) None) db
  = (db, Ok (mkResponse 500 (JObj [("message", JStr "Server error")]))).
Proof.
  intros Hu. unfold login, try_async, await, findOne, lift. simpl.
  rewrite Hu. reflexivity.
Qed.

End WithPrimitives.

#[local] Existing Instance Toy.codec.
#[local] Existing Instance Toy.kdf.

Lemma login_failures_indistinguishable_witness :
  login Toy.env Toy.world
    (mkBody None (Some "bob@example.com") (Some "secret123"))
    (Toy.with_ada true)
  = (Toy.with_ada true,
     Ok (mkResponse 400 (JObj [("message", JStr "Invalid credentials")])))
  /\ login Toy.env Toy.world
       (mkBody None (Some "ada@example.com") (Some "secret124"))
       (Toy.with_ada true)
     = login Toy.env Toy.world
         (mkBody None (Some "bob@example.com") (Some "secret123"))
         (Toy.with_ada true).
Proof.
  apply (login_failures_indistinguishable Toy.env Toy.world Toy.world
           (Toy.with_ada true) None None (Some "bob@example.com")
           (Some "secret123") "ada@example.com" "secret124"
           (User.mkDoc 1%N "Ada" "ada@example.com"
              (Toy.toy_hash "secret123" "salt"))).
  - reflexivity.
  - reflexivity.
  - reflexivity.
Defined.

Lemma login_without_password_witness :
  login Toy.env Toy.world (mkBody None (Some "ada@example.com") None)
    (Toy.with_ada false)
  = (Toy.with_ada false,
     Ok (mkResponse 500 (JObj [("message", JStr "Server error")]))).
Proof.
  apply (login_without_password Toy.env Toy.world (Toy.with_ada false) None
           "ada@example.com"
           (User.mkDoc 1%N "Ada" "ada@example.com"
              (Toy.toy_hash "secret123" "salt"))).
  reflexivity.
Defined.

End AuthFacts.

(* ================================================================== *)
(** * Registration *)
(* ================================================================== *)

Module RegisterFacts.

Import Auth.

#[local] Arguments User.findOne : simpl never.
#[local] Arguments User.create : simpl never.
#[local] Arguments Jwt.sign : simpl never.

Section WithPrimitives.

Context `{C : Jwt.Codec} `{K : Bcrypt.Kdf}.

Lemma register_missing_field (env : Env) (w : World) (db : User.Collection)
    (b : Body) :
  falsy_str (name b) || falsy_str (email b) || falsy_str (password b) = true ->
  register env w b db
  = (db, Ok (res_status_json 400 (message "All fields are required"))).
Proof.
  intros Hmissing. unfold register, try_async. rewrite Hmissing. reflexivity.
Qed.

Lemma register_email_in_use (env : Env) (w : World) (db : User.Collection)
    (b : Body) (u : User.Doc) :
  falsy_str (name b) || falsy_str (email b) || falsy_str (password b) = false ->
  User.findOne db (email b) = Some u ->
  register env w b db
  = (db, Ok (res_status_json 400 (message "Email already in use"))).
Proof.
  intros Hpresent Hu. unfold register, try_async, await, findOne.
  rewrite Hpresent, Hu. reflexivity.
Qed.

Lemma register_fresh (env : Env) (w : World) (db : User.Collection)
    (n e p key : string) :
  n <> EmptyString -> e <> EmptyString -> p <> EmptyString ->
  User.findOne db (Some e) = None ->
  JWT_SECRET env = Some key -> key <> EmptyString ->
  let user := User.mkDoc (User.nextId db) n e
                (Bcrypt.hashSync p (salt w)) in
  exists token,
    Jwt.sign (claims_of user) (Some key) (now w) = Ok token
    /\ register env w (mkBody (Some n) (Some e) (Some p)) db
       = (User.mkCollection (User.documents db ++ [user])
            (N.succ (User.nextId db)) (User.uniqueEmail db),
          Ok (res_json (session token user))).
Proof.
  intros Hn He Hp Hfresh Hsecret Hkey user.
  pose proof (JwtFacts.sign_eq (claims_of user) key (now w) Hkey) as Hsign.
  cbv zeta in Hsign. eexists. split; [exact Hsign|].
  unfold register, try_async, await, findOne, create, lift. simpl.
  apply String.eqb_neq in Hn, He, Hp. rewrite Hn, He, Hp. simpl.
  rewrite Hfresh. rewrite (UserFacts.create_fresh db n e _ Hfresh).
  rewrite Hsecret. fold user. rewrite Hsign. reflexivity.
Qed.

(** C3: for every register request: (1) when any of name, email and
    password is missing or empty, the answer is 400 All fields are
    required and the collection is unchanged; (2) when all three are
    present and no record has the email, the request succeeds: the
    user is appended to the collection and the answer is
    [{token, user: {id, name, email}}] with the token signed for that
    user; and from then on every register with all fields present and
    that email gets 400 Email already in use and leaves the collection
    unchanged, so the email registers exactly once.  (The server runs
    with its signing secret set.) *)
Theorem register_outcomes (env : Env) (w : World) (db : User.Collection)
    (b : Body) :
  (falsy_str (name b) || falsy_str (email b) || falsy_str (password b) = true ->
   register env w b db
   = (db, Ok (mkResponse 400 (JObj [("message", JStr "All fields are required")]))))
  /\ (forall n e p key : string,
        b = mkBody (Some n) (Some e) (Some p) ->
        n <> EmptyString -> e <> EmptyString -> p <> EmptyString ->
        User.findOne db (Some e) = None ->
        JWT_SECRET env = Some key -> key <> EmptyString ->
        let user := User.mkDoc (User.nextId db) n e
                      (Bcrypt.hashSync p (salt w)) in
        exists (token : string) (db' : User.Collection),
          register env w b db
          = (db', Ok (mkResponse 200
               (JObj [("token", JStr token);
                      ("user", JObj [("id", User.id_json (User.nextId db));
                                     ("name", JStr n);
                                     ("email", JStr e)])])))
          /\ Jwt.sign (Jwt.mkClaims (User.nextId db) n e) (Some key) (now w)
             = Ok token
          /\ User.documents db' = (User.documents db ++ [user])%list
          /\ User.findOne db' (Some e) = Some user
          /\ forall (w2 : World) (b2 : Body),
               email b2 = Some e ->
               falsy_str (name b2) = false ->
               falsy_str (password b2) = false ->
               register env w2 b2 db'
               = (db', Ok (mkResponse 400
                             (JObj [("message", JStr "Email already in use")])))).
Proof.
  split.
  - apply register_missing_field.
  - intros n e p key -> Hn He Hp Hfresh Hsecret Hkey user.
    destruct (register_fresh env w db n e p key Hn He Hp Hfresh Hsecret Hkey)
      as [token [Hsign Hreg]].
    fold user in Hsign, Hreg.
    exists token. eexists. split; [exact Hreg|].
    split; [exact Hsign|]. split; [reflexivity|].
    pose proof (UserFacts.findOne_created db n e
                  (Bcrypt.hashSync p (salt w)) Hfresh) as Hfound.
    split; [exact Hfound|].
    intros w2 b2 Hemail Hname Hpassword.
    apply (register_email_in_use env w2 _ b2 user).
    + rewrite Hname, Hpassword, Hemail. simpl.
      apply String.eqb_neq in He. now rewrite He.
    + rewrite Hemail. exact Hfound.
Qed.

End WithPrimitives.

#[local] Existing Instance Toy.codec.
#[local] Existing Instance Toy.kdf.

(** The scenario of the specification: Ada registers, and registers
    again. *)
Lemma register_outcomes_witness :
  register Toy.env Toy.world (mkBody (Some "Ada") None (Some "secret123"))
    (Toy.empty true)
  = (Toy.empty true,
     Ok (mkResponse 400 (JObj [("message", JStr "All fields are required")])))
  /\ exists token db',
       register Toy.env Toy.world Toy.ada (Toy.empty true)
       = (db', Ok (mkResponse 200
            (JObj [("token", JStr token);
                   ("user", JObj [("id", JStr "0x1");
                                  ("name", JStr "Ada");
                                  ("email", JStr "ada@example.com")])])))
       /\ register Toy.env Toy.world Toy.ada db'
          = (db', Ok (mkResponse 400
                        (JObj [("message", JStr "Email already in use")]))).
Proof.
  split.
  - apply (proj1 (register_outcomes Toy.env Toy.world (Toy.empty true)
                    (mkBody (Some "Ada") None (Some "secret123")))).
    reflexivity.
  - destruct (proj2 (register_outcomes Toy.env Toy.world (Toy.empty true)
                       Toy.ada)
                "Ada" "ada@example.com" "secret123" "s3cret")
      as [token [db' [Hreg [_ [_ [_ Hagain]]]]]];
      try reflexivity; try discriminate.
    exists token, db'. split; [exact Hreg|].
    apply Hagain; reflexivity.
Defined.

End RegisterFacts.

(* ================================================================== *)
(** * The current user *)
(* ================================================================== *)

Module MeFacts.

Import Auth.

#[local] Arguments User.findById : simpl never.

Section WithCodec.

Context `{C : Jwt.Codec}.

Lemma me_accepted (env : Env) (w : World) (req : Request)
    (db : User.Collection) (userId : User.ObjectId) :
  authMiddleware env w req = Next userId ->
  me env w req db
  = (db, Ok (res_json
               (JObj [("user",
                       User.select_name_email (User.findById db userId))]))).
Proof.
  intros Hg. unfold me, protect. rewrite Hg. reflexivity.
Qed.

(** C7: for every request to me with a token the guard accepts, the
    answer is status 200 with the current user's projection under
    [user]: the name and the email (and the id), and nowhere the
    password hash.  Whenever the guard rejects, the answer is the
    guard's 401 and the collection is not read. *)
Theorem me_returns_projection (env : Env) (w : World) (req : Request)
    (db : User.Collection) :
  (forall (userId : User.ObjectId) (u : User.Doc),
     authMiddleware env w req = Next userId ->
     User.findById db userId = Some u ->
     exists b : json,
       me env w req db = (db, Ok (mkResponse 200 b))
       /\ b = JObj [("user", JObj [("_id", User.id_json (User._id u));
                                   ("name", JStr (User.name u));
                                   ("email", JStr (User.email u))])]
       /\ has_key "passwordHash" b = false)
  /\ (forall r : Response,
        authMiddleware env w req = Rejected r ->
        me env w req db = (db, Ok r) /\ status r = 401%Z).
Proof.
  split.
  - intros userId u Hg Hu. eexists. split; [|split; [reflexivity|]].
    + rewrite (me_accepted env w req db userId Hg), Hu. reflexivity.
    + reflexivity.
  - intros r Hg. split.
    + unfold me, protect. rewrite Hg. reflexivity.
    + exact (GuardFacts.guard_rejected_401 env w req r Hg).
Qed.

(** C9: when the token verifies but no stored user has the id it
    carries, me answers status 200 with [{user: null}]: neither a 401
    nor an error, because the handler does not look at what the lookup
    found. *)
Theorem me_unknown_user (env : Env) (w : World) (req : Request)
    (db : User.Collection) (t : string) (decoded : Jwt.Payload) :
  token_of req = Some t ->
  Jwt.verify t (JWT_SECRET env) (now w) = Ok decoded ->
  User.findById db (Jwt.id (Jwt.claims decoded)) = None ->
  me env w req db = (db, Ok (mkResponse 200 (JObj [("user", JNull)]))).
Proof.
  intros Ht Hv Hnone.
  rewrite (me_accepted env w req db _
             (GuardFacts.guard_accepts env w req t decoded Ht Hv)).
  rewrite Hnone. reflexivity.
Qed.

End WithCodec.

#[local] Existing Instance Toy.codec.

(** Ada asks who she is; a request without a token is turned away. *)
Lemma me_returns_projection_witness :
  (exists b,
     me Toy.env Toy.world (Toy.bearer Toy.ada_token) (Toy.with_ada true)
     = (Toy.with_ada true, Ok (mkResponse 200 b))
     /\ b = JObj [("user", JObj [("_id", JStr "0x1");
                                 ("name", JStr "Ada");
                                 ("email", JStr "ada@example.com")])]
     /\ has_key "passwordHash" b = false)
  /\ me Toy.env Toy.world (mkRequest None (mkBody None None None))
       (Toy.with_ada true)
     = (Toy.with_ada true, Ok missing_token).
Proof.
  split.
  - apply (proj1 (me_returns_projection Toy.env Toy.world
                    (Toy.bearer Toy.ada_token) (Toy.with_ada true))
             1%N (User.mkDoc 1%N "Ada" "ada@example.com"
                    (Toy.toy_hash "secret123" "salt"))).
    + vm_compute. reflexivity.
    + vm_compute. reflexivity.
  - apply (proj2 (me_returns_projection Toy.env Toy.world
                    (mkRequest None (mkBody None None None))
                    (Toy.with_ada true)) missing_token).
    reflexivity.
Defined.

(** Ada's token, after her record is gone. *)
Lemma me_unknown_user_witness :
  me Toy.env Toy.world (Toy.bearer Toy.ada_token) (Toy.empty true)
  = (Toy.empty true, Ok (mkResponse 200 (JObj [("user", JNull)]))).
Proof.
  apply (me_unknown_user Toy.env Toy.world (Toy.bearer Toy.ada_token)
           (Toy.empty true) Toy.ada_token
           (Jwt.mkPayload (Jwt.mkClaims 1%N "Ada" "ada@example.com")
              1700000000 1700604800)).
  - reflexivity.
  - vm_compute. reflexivity.
  - reflexivity.
Defined.

End MeFacts.

(* ================================================================== *)
(** * Start-up *)
(* ================================================================== *)

Module StartupFacts.

#[local] Existing Instance Toy.codec.
#[local] Existing Instance Toy.kdf.

Section WithNode.

Context `{P : Startup.PortCheck}.

(** Start-up never reads the signing secret. *)
Lemma main_ignores_secret (s1 s2 uri p k : option string)
    (reachable : string -> bool) :
  Startup.main (mkEnv s1 uri p k) reachable
  = Startup.main (mkEnv s2 uri p k) reachable.
Proof. reflexivity. Qed.

(** C6 does not hold of the code: with no JWT_SECRET in the environment
    and the database reachable, start-up ends with the server
    listening.  A registration then stores the user and answers 500
    Server error, since signing throws.  A missing database uri, by
    contrast, ends start-up with [process.exit(1)]. *)
Theorem startup_without_secret_listens :
  Startup.main Toy.env_without_secret (fun _ => true)
  = Startup.Listening "4000"
  /\ Auth.register Toy.env_without_secret Toy.world Toy.ada (Toy.empty true)
     = (Toy.with_ada true,
        Ok (mkResponse 500 (JObj [("message", JStr "Server error")])))
  /\ Startup.main (mkEnv (Some "s3cret") None None (Some "k")) (fun _ => true)
     = Startup.Exited 1.
Proof.
  repeat split.
Qed.

End WithNode.

End StartupFacts.

(* ================================================================== *)
(** * Two registrations with the same email *)
(* ================================================================== *)

Module RaceFacts.

Import Auth Race.

#[local] Arguments User.findOne : simpl never.
#[local] Arguments User.create : simpl never.
#[local] Arguments Jwt.sign : simpl never.

Section WithPrimitives.

Context `{C : Jwt.Codec} `{K : Bcrypt.Kdf}.

(** A request that runs alone, from its arrival through its two
    database operations, is the register handler. *)
Lemma alone_is_register (env : Env) (w : World) (b : Body)
    (d : User.Collection) :
  let s1 := resume env d (start w b) in
  let s2 := resume env (fst s1) (snd s1) in
  exists r, snd s2 = Sent r /\ register env w b d = (fst s2, Ok r).
Proof.
  cbv zeta. unfold start, register, try_async, await, findOne, create, lift.
  destruct (falsy_str (name b) || falsy_str (email b) || falsy_str (password b))
    eqn:Hfields.
  - simpl. eauto.
  - cbn [resume fst snd].
    destruct (User.findOne d (email b)) as [u|]; [simpl; eauto|].
    destruct (Bcrypt.hash (password b) (salt w)) as [h|e];
      [|simpl; eauto].
    cbn [resume fst snd].
    destruct (User.create d _ _ h) as [[user d']|e]; [|simpl; eauto].
    destruct (Jwt.sign _ _ _) as [token|e]; simpl; eauto.
Qed.

Lemma existsb_snoc {A} (f : A -> bool) (l : list A) (x : A) :
  f x = true -> existsb f (l ++ [x]) = true.
Proof.
  intros Hx. rewrite existsb_app. simpl. rewrite Hx.
  now rewrite orb_true_r.
Qed.

Lemma resume_query (env : Env) (w : World) (d : User.Collection)
    (b : Body) (p : string) :
  User.findOne d (email b) = None -> password b = Some p ->
  resume env d (AwaitFindOne w b)
  = (d, AwaitCreate w b (Bcrypt.hashSync p (salt w))).
Proof.
  intros Hfresh Hp. cbn [resume]. rewrite Hfresh, Hp. reflexivity.
Qed.

Lemma resume_insert_fresh (env : Env) (w : World) (d : User.Collection)
    (n e h key : string) (p : option string) :
  User.findOne d (Some e) = None ->
  JWT_SECRET env = Some key -> key <> EmptyString ->
  exists token,
    resume env d (AwaitCreate w (mkBody (Some n) (Some e) p) h)
    = (User.mkCollection
         (User.documents d ++ [User.mkDoc (User.nextId d) n e h])
         (N.succ (User.nextId d)) (User.uniqueEmail d),
       Sent (res_json (session token (User.mkDoc (User.nextId d) n e h)))).
Proof.
  intros Hfresh Hsecret Hkey. eexists.
  cbn [resume name email str].
  rewrite (UserFacts.create_fresh d n e h Hfresh), Hsecret.
  rewrite (JwtFacts.sign_eq _ key (now w) Hkey). reflexivity.
Qed.

Lemma resume_insert_taken (env : Env) (w : World) (d : User.Collection)
    (n e h key : string) (p : option string) :
  existsb (User.has_email e) (User.documents d) = true ->
  JWT_SECRET env = Some key -> key <> EmptyString ->
  if User.uniqueEmail d
  then resume env d (AwaitCreate w (mkBody (Some n) (Some e) p) h)
       = (d, Sent server_error)
  else exists token d',
         resume env d (AwaitCreate w (mkBody (Some n) (Some e) p) h)
         = (d', Sent (mkResponse 200 token)).
Proof.
  intros Htaken Hsecret Hkey.
  cbn [resume name email str]. unfold User.create. rewrite Htaken.
  destruct (User.uniqueEmail d); cbn [andb].
  - reflexivity.
  - rewrite Hsecret, (JwtFacts.sign_eq _ key (now w) Hkey). cbv zeta.
    eexists. eexists. reflexivity.
Qed.

(** When both requests have queried before either inserts, the first
    insert succeeds and the second request is never told that the
    email is in use: under a unique index its insert throws and it gets
    500 Server error, without one it succeeds as well. *)
Lemma both_query_before_insert (env : Env) (w1 w2 : World)
    (d : User.Collection) (n1 n2 e p1 p2 key : string) :
  n1 <> EmptyString -> n2 <> EmptyString -> e <> EmptyString ->
  p1 <> EmptyString -> p2 <> EmptyString ->
  User.findOne d (Some e) = None ->
  JWT_SECRET env = Some key -> key <> EmptyString ->
  let s := run env interleaved
             (arrive d w1 (mkBody (Some n1) (Some e) (Some p1))
                       w2 (mkBody (Some n2) (Some e) (Some p2))) in
  succeeded (task1 s) = true
  /\ (if User.uniqueEmail d then task2 s = Sent server_error
      else succeeded (task2 s) = true)
  /\ one_winner s = false.
Proof.
  intros Hn1 Hn2 He Hp1 Hp2 Hfresh Hsecret Hkey.
  apply String.eqb_neq in Hn1, Hn2, He, Hp1, Hp2.
  cbv zeta. unfold run, interleaved. cbn [fold_left].
  set (b1 := mkBody (Some n1) (Some e) (Some p1)).
  set (b2 := mkBody (Some n2) (Some e) (Some p2)).
  set (h1 := Bcrypt.hashSync p1 (salt w1)).
  set (h2 := Bcrypt.hashSync p2 (salt w2)).
  assert (E0 : arrive d w1 b1 w2 b2
               = mkSystem d (AwaitFindOne w1 b1) (AwaitFindOne w2 b2)).
  { unfold arrive, start, b1, b2. simpl falsy_str.
    rewrite Hn1, Hn2, He, Hp1, Hp2. reflexivity. }
  rewrite E0. clear E0.
  assert (E1 : step env (mkSystem d (AwaitFindOne w1 b1) (AwaitFindOne w2 b2))
                 First
               = mkSystem d (AwaitCreate w1 b1 h1) (AwaitFindOne w2 b2)).
  { unfold step. cbn [db task1 task2].
    rewrite (resume_query env w1 d b1 p1 Hfresh eq_refl). reflexivity. }
  rewrite E1. clear E1.
  assert (E2 : step env (mkSystem d (AwaitCreate w1 b1 h1) (AwaitFindOne w2 b2))
                 Second
               = mkSystem d (AwaitCreate w1 b1 h1) (AwaitCreate w2 b2 h2)).
  { unfold step. cbn [db task1 task2].
    rewrite (resume_query env w2 d b2 p2 Hfresh eq_refl). reflexivity. }
  rewrite E2. clear E2.
  destruct (resume_insert_fresh env w1 d n1 e h1 key (Some p1)
              Hfresh Hsecret Hkey) as [token Hfirst].
  fold b1 in Hfirst.
  set (d1 := User.mkCollection
               (User.documents d ++ [User.mkDoc (User.nextId d) n1 e h1])
               (N.succ (User.nextId d)) (User.uniqueEmail d)) in *.
  assert (E3 : step env (mkSystem d (AwaitCreate w1 b1 h1) (AwaitCreate w2 b2 h2))
                 First
               = mkSystem d1
                   (Sent (res_json (session token
                                      (User.mkDoc (User.nextId d) n1 e h1))))
                   (AwaitCreate w2 b2 h2)).
  { unfold step. cbn [db task1 task2]. rewrite Hfirst. reflexivity. }
  rewrite E3. clear E3.
  assert (Htaken : existsb (User.has_email e) (User.documents d1) = true).
  { apply existsb_snoc. unfold User.has_email. apply String.eqb_refl. }
  pose proof (resume_insert_taken env w2 d1 n2 e h2 key (Some p2)
                Htaken Hsecret Hkey) as Hsecond.
  fold b2 in Hsecond.
  change (User.uniqueEmail d1) with (User.uniqueEmail d) in Hsecond.
  unfold step. cbn [db task1 task2].
  destruct (User.uniqueEmail d).
  - rewrite Hsecond. repeat split.
  - destruct Hsecond as [token2 [d2 ->]]. repeat split.
Qed.

End WithPrimitives.

#[local] Existing Instance Toy.codec.
#[local] Existing Instance Toy.kdf.

(** C8 does not hold of the code: the handler queries ([findOne]) and
    inserts ([create]) in two database operations.  When two requests
    for the same unseen email both query before either inserts, the
    outcome is never one success and one Email already in use: with a
    unique index on the email the second request gets 500 Server
    error, without one both succeed and two records share the email.
    Run one after the other, the same two requests give one success
    and one Email already in use. *)
Theorem concurrent_register_race (unique : bool) :
  let s := run Toy.env interleaved
             (arrive (Toy.empty unique) Toy.world Toy.ada Toy.world Toy.ada) in
  one_winner s = false
  /\ succeeded (task1 s) = true
  /\ (if unique
      then task2 s = Sent (mkResponse 500 (JObj [("message", JStr "Server error")]))
      else succeeded (task2 s) = true
           /\ List.length (User.documents (db s)) = 2%nat)
  /\ one_winner
       (run Toy.env sequential
          (arrive (Toy.empty unique) Toy.world Toy.ada Toy.world Toy.ada))
     = true.
Proof.
  destruct unique; vm_compute; repeat split.
Qed.

End RaceFacts.

(* ================================================================== *)
(** * Sessions: what a registered user can do *)
(* ================================================================== *)

Module SessionFacts.

Import Auth.

#[local] Arguments User.findOne : simpl never.
#[local] Arguments User.findById : simpl never.
#[local] Arguments User.create : simpl never.
#[local] Arguments Jwt.sign : simpl never.
#[local] Arguments Jwt.verify : simpl never.

Lemma findById_created (db : User.Collection) (n e h : string) :
  User.findById db (User.nextId db) = None ->
  User.findById
    (User.mkCollection
       (User.documents db ++ [User.mkDoc (User.nextId db) n e h])
       (N.succ (User.nextId db)) (User.uniqueEmail db))
    (User.nextId db)
  = Some (User.mkDoc (User.nextId db) n e h).
Proof.
  intros Hfresh. unfold User.findById. simpl.
  apply UserFacts.find_snoc; [exact Hfresh|].
  simpl. apply N.eqb_refl.
Qed.

Section WithPrimitives.

Context `{C : Jwt.Codec} `{K : Bcrypt.Kdf}.

Lemma login_accepted (env : Env) (w : World) (db : User.Collection)
    (b : Body) (u : User.Doc) (p key : string) :
  User.findOne db (email b) = Some u ->
  password b = Some p ->
  Bcrypt.compareSync p (User.passwordHash u) = true ->
  JWT_SECRET env = Some key -> key <> EmptyString ->
  exists token,
    Jwt.sign (Jwt.mkClaims (User._id u) (User.name u) (User.email u))
      (Some key) (now w) = Ok token
    /\ login env w b db
       = (db, Ok (mkResponse 200
            (JObj [("token", JStr token);
                   ("user", JObj [("id", User.id_json (User._id u));
                                  ("name", JStr (User.name u));
                                  ("email", JStr (User.email u))])]))).
Proof.
  intros Hu Hp Hcmp Hsecret Hkey.
  pose proof (JwtFacts.sign_eq (claims_of u) key (now w) Hkey) as Hsign.
  cbv zeta in Hsign. eexists. split; [exact Hsign|].
  unfold login, try_async, await, findOne, lift.
  rewrite Hu, Hp. cbn [Bcrypt.compare]. rewrite Hcmp. cbn [negb].
  rewrite Hsecret, Hsign. reflexivity.
Qed.

(** X1: A login with a stored email and a password that [bcrypt.compare]
    accepts answers 200 with a token signed for the stored user and
    the user's id, name and email; it writes nothing. *)
Theorem login_success (env : Env) (w : World) (db : User.Collection)
    (b : Body) (u : User.Doc) (p key : string) :
  User.findOne db (email b) = Some u ->
  password b = Some p ->
  Bcrypt.compareSync p (User.passwordHash u) = true ->
  JWT_SECRET env = Some key -> key <> EmptyString ->
  exists token,
    Jwt.sign (Jwt.mkClaims (User._id u) (User.name u) (User.email u))
      (Some key) (now w) = Ok token
    /\ login env w b db
       = (db, Ok (mkResponse 200
            (JObj [("token", JStr token);
                   ("user", JObj [("id", User.id_json (User._id u));
                                  ("name", JStr (User.name u));
                                  ("email", JStr (User.email u))])]))).
Proof. apply login_accepted. Qed.

(** X3: Register, then ask who I am: the token in register's answer, sent
    as a bearer token before it expires, makes me answer with the id,
    name and email that were registered. *)
Theorem register_then_me (L : Jwt.CodecLaws C) (env : Env) (w w' : World)
    (db : User.Collection) (n e p key : string) (req : Request) :
  n <> EmptyString -> e <> EmptyString -> p <> EmptyString ->
  User.findOne db (Some e) = None ->
  User.findById db (User.nextId db) = None ->
  JWT_SECRET env = Some key -> key <> EmptyString ->
  (Jwt.clockTimestamp (now w') < Jwt.clockTimestamp (now w) + 604800)%Z ->
  exists token db',
    register env w (mkBody (Some n) (Some e) (Some p)) db
    = (db', Ok (mkResponse 200
         (JObj [("token", JStr token);
                ("user", JObj [("id", User.id_json (User.nextId db));
                               ("name", JStr n); ("email", JStr e)])])))
    /\ (authorization req = Some ("Bearer " ++ token) ->
        me env w' req db'
        = (db', Ok (mkResponse 200
             (JObj [("user", JObj [("_id", User.id_json (User.nextId db));
                                   ("name", JStr n);
                                   ("email", JStr e)])])))).
Proof.
  intros Hn He Hp Hfresh Hid Hsecret Hkey Hwindow.
  destruct (RegisterFacts.register_fresh env w db n e p key
              Hn He Hp Hfresh Hsecret Hkey) as [token [Hsign Hreg]].
  exists token. eexists. split; [exact Hreg|].
  intros Hheader.
  rewrite (MeFacts.me_accepted env w' req _ (User.nextId db)).
  - rewrite (findById_created db n e _ Hid). reflexivity.
  - apply (GuardFacts.guard_accepts_issued L env w w' req
             (Jwt.mkClaims (User.nextId db) n e) key token
             Hsecret Hkey Hsign Hheader).
    exact Hwindow.
Qed.

(** X4: Without a signing secret, a registration with all fields and a
    fresh email still stores the user, and answers 500 Server error.
    From then on the email cannot be registered again (400 Email
    already in use), and a login with the right password answers 500
    as well: the account exists and no token can be had for it. *)
Theorem register_without_secret (env : Env) (w : World)
    (db : User.Collection) (n e p : string) :
  falsy_str (JWT_SECRET env) = true ->
  n <> EmptyString -> e <> EmptyString -> p <> EmptyString ->
  User.findOne db (Some e) = None ->
  let user := User.mkDoc (User.nextId db) n e (Bcrypt.hashSync p (salt w)) in
  let db' := User.mkCollection (User.documents db ++ [user])
               (N.succ (User.nextId db)) (User.uniqueEmail db) in
  let server_error :=
    mkResponse 500 (JObj [("message", JStr "Server error")]) in
  register env w (mkBody (Some n) (Some e) (Some p)) db
  = (db', Ok server_error)
  /\ (forall w2 n2 p2,
        n2 <> EmptyString -> p2 <> EmptyString ->
        register env w2 (mkBody (Some n2) (Some e) (Some p2)) db'
        = (db', Ok (mkResponse 400
                      (JObj [("message", JStr "Email already in use")]))))
  /\ (forall w2 n2 p2,
        Bcrypt.compareSync p2 (Bcrypt.hashSync p (salt w)) = true ->
        login env w2 (mkBody n2 (Some e) (Some p2)) db'
        = (db', Ok server_error)).
Proof.
  intros Hsecret Hn He Hp Hfresh user db' server_error.
  assert (Hsign : forall c t, exists m,
            Jwt.sign c (JWT_SECRET env) t = Throw m).
  { intros c t. unfold Jwt.sign.
    destruct (JWT_SECRET env) as [k|]; [|eauto].
    simpl in Hsecret. rewrite Hsecret. eauto. }
  pose proof (UserFacts.findOne_created db n e
                (Bcrypt.hashSync p (salt w)) Hfresh) as Hfound.
  fold user db' in Hfound.
  apply String.eqb_neq in Hn, He, Hp.
  split; [|split].
  - unfold register, try_async, await, findOne, create, lift. simpl.
    rewrite Hn, He, Hp. simpl.
    rewrite Hfresh, (UserFacts.create_fresh db n e _ Hfresh).
    fold user db'.
    destruct (Hsign (claims_of user) (now w)) as [m ->]. reflexivity.
  - intros w2 n2 p2 Hn2 Hp2.
    apply (RegisterFacts.register_email_in_use env w2 db' _ user).
    + apply String.eqb_neq in Hn2, Hp2. simpl. now rewrite Hn2, He, Hp2.
    + exact Hfound.
  - intros w2 n2 p2 Hcmp.
    unfold login, try_async, await, findOne, lift. simpl.
    rewrite Hfound. simpl. rewrite Hcmp. simpl.
    destruct (Hsign (claims_of user) (now w2)) as [m ->]. reflexivity.
Qed.

End WithPrimitives.

#[local] Existing Instance Toy.codec.
#[local] Existing Instance Toy.kdf.

Lemma login_success_witness :
  exists token,
    Jwt.sign (Jwt.mkClaims 1%N "Ada" "ada@example.com") (Some "s3cret")
      1700000000000 = Ok token
    /\ login Toy.env Toy.world
         (mkBody None (Some "ada@example.com") (Some "secret123"))
         (Toy.with_ada false)
       = (Toy.with_ada false,
          Ok (mkResponse 200
                (JObj [("token", JStr token);
                       ("user", JObj [("id", JStr "0x1");
                                      ("name", JStr "Ada");
                                      ("email", JStr "ada@example.com")])]))).
Proof.
  apply (login_success Toy.env Toy.world (Toy.with_ada false)
           (mkBody None (Some "ada@example.com") (Some "secret123"))
           (User.mkDoc 1%N "Ada" "ada@example.com"
              (Toy.toy_hash "secret123" "salt")) "secret123" "s3cret");
    try reflexivity.
  discriminate.
Defined.

Lemma register_then_me_witness :
  me Toy.env (mkWorld 1700000500000 "other") (Toy.bearer Toy.ada_token)
    (Toy.with_ada true)
  = (Toy.with_ada true,
     Ok (mkResponse 200
           (JObj [("user", JObj [("_id", JStr "0x1");
                                 ("name", JStr "Ada");
                                 ("email", JStr "ada@example.com")])]))).
Proof.
  assert (Hn : "Ada" <> EmptyString) by discriminate.
  assert (He : "ada@example.com" <> EmptyString) by discriminate.
  assert (Hp : "secret123" <> EmptyString) by discriminate.
  assert (Hk : "s3cret" <> EmptyString) by discriminate.
  destruct (register_then_me ToyFacts.codec_laws Toy.env Toy.world
              (mkWorld 1700000500000 "other") (Toy.empty true)
              "Ada" "ada@example.com" "secret123" "s3cret"
              (Toy.bearer Toy.ada_token)
              Hn He Hp eq_refl eq_refl eq_refl Hk eq_refl)
    as [token [db' [Hreg Hme]]].
  vm_compute in Hreg. injection Hreg as Hdb Htoken. subst db' token.
  apply Hme. vm_compute. reflexivity.
Defined.

Lemma register_without_secret_witness :
  register Toy.env_without_secret Toy.world Toy.ada (Toy.empty true)
  = (Toy.with_ada true,
     Ok (mkResponse 500 (JObj [("message", JStr "Server error")])))
  /\ login Toy.env_without_secret Toy.world
       (mkBody None (Some "ada@example.com") (Some "secret123"))
       (Toy.with_ada true)
     = (Toy.with_ada true,
        Ok (mkResponse 500 (JObj [("message", JStr "Server error")]))).
Proof.
  destruct (register_without_secret Toy.env_without_secret Toy.world
              (Toy.empty true) "Ada" "ada@example.com" "secret123")
    as [Hreg [_ Hlogin]]; try discriminate; try reflexivity.
  split; [exact Hreg|].
  apply (Hlogin Toy.world None "secret123"). reflexivity.
Defined.

End SessionFacts.

(* ================================================================== *)
(** * What the auth routes do to the collection *)
(* ================================================================== *)

Module CollectionFacts.

Import Auth Api.

#[local] Arguments User.findOne : simpl never.
#[local] Arguments User.findById : simpl never.
#[local] Arguments Jwt.sign : simpl never.
#[local] Arguments Jwt.verify : simpl never.

Lemma find_none_not_in (e : string) (docs : list User.Doc) :
  find (User.has_email e) docs = None -> ~ In e (map User.email docs).
Proof.
  induction docs as [|d docs IH]; simpl; intros Hnone; [tauto|].
  unfold User.has_email in Hnone at 1.
  destruct (User.email d =? e) eqn:Heq; [discriminate|].
  apply String.eqb_neq in Heq. intros [Hhead | Htail]; [contradiction|].
  now apply IH.
Qed.

Lemma NoDup_snoc {A} (l : list A) (x : A) :
  NoDup l -> ~ In x l -> NoDup (l ++ [x]).
Proof.
  induction l as [|y l IH]; simpl; intros Hl Hx.
  - constructor; [tauto | constructor].
  - inversion Hl as [|? ? Hy Hl']; subst. constructor.
    + rewrite in_app_iff. simpl. intros [Hin | [Heq | []]]; [tauto|].
      subst. tauto.
    + apply IH; tauto.
Qed.

Section WithPrimitives.

Context `{C : Jwt.Codec} `{K : Bcrypt.Kdf}.

(** A register request leaves the collection as it is, or appends one
    record whose email no stored record had. *)
Lemma register_effect (env : Env) (w : World) (b : Body)
    (db : User.Collection) :
  fst (register env w b db) = db
  \/ exists n e h,
       User.findOne db (Some e) = None
       /\ fst (register env w b db)
          = User.mkCollection
              (User.documents db ++ [User.mkDoc (User.nextId db) n e h])
              (N.succ (User.nextId db)) (User.uniqueEmail db).
Proof.
  unfold register, try_async, await, findOne, create, lift.
  destruct b as [[n|] [e|] [p|]]; simpl; try (left; reflexivity).
  - destruct ((n =? EmptyString) || (e =? EmptyString) || (p =? EmptyString));
      [left; reflexivity|].
    destruct (User.findOne db (Some e)) as [u|] eqn:Hfresh;
      [left; reflexivity|].
    rewrite (UserFacts.create_fresh db n e _ Hfresh).
    right. exists n, e, (Bcrypt.hashSync p (salt w)).
    split; [exact Hfresh|].
    destruct (Jwt.sign _ _ _); reflexivity.
  - left. destruct ((n =? EmptyString) || (e =? EmptyString)); reflexivity.
  - left. destruct (n =? EmptyString); reflexivity.
  - left. destruct (n =? EmptyString); reflexivity.
Qed.

Lemma login_reads_only (env : Env) (w : World) (b : Body)
    (db : User.Collection) :
  fst (login env w b db) = db.
Proof.
  unfold login, try_async, await, findOne, lift.
  destruct (User.findOne db (email b)) as [u|]; [|reflexivity].
  destruct (password b) as [p|]; simpl; [|reflexivity].
  destruct (Bcrypt.compareSync p (User.passwordHash u)); simpl;
    [|reflexivity].
  destruct (Jwt.sign _ _ _); reflexivity.
Qed.

Lemma me_reads_only (env : Env) (w : World) (req : Request)
    (db : User.Collection) :
  fst (me env w req db) = db.
Proof.
  unfold me, protect. destruct (authMiddleware env w req); reflexivity.
Qed.

Lemma serve_effect (env : Env) (c : Call) (db : User.Collection) :
  fst (serve env db c) = db
  \/ exists n e h,
       User.findOne db (Some e) = None
       /\ fst (serve env db c)
          = User.mkCollection
              (User.documents db ++ [User.mkDoc (User.nextId db) n e h])
              (N.succ (User.nextId db)) (User.uniqueEmail db).
Proof.
  destruct c as [w b|w b|w req]; simpl.
  - apply register_effect.
  - left. apply login_reads_only.
  - left. apply me_reads_only.
Qed.

(** X5: No request alters or removes a stored record: login and me write
    nothing, and after any list of requests, served one after the
    other, the records stored before are still there, first and in
    order, followed by at most one new record for each request. *)
Theorem stored_records_are_kept (env : Env) (calls : list Call)
    (db : User.Collection) :
  (forall w b, fst (login env w b db) = db)
  /\ (forall w req, fst (me env w req db) = db)
  /\ exists added : list User.Doc,
       User.documents (serve_all env calls db)
       = (User.documents db ++ added)%list
       /\ (List.length added <= List.length calls)%nat.
Proof.
  split; [intros; apply login_reads_only|].
  split; [intros; apply me_reads_only|].
  revert db. induction calls as [|c calls IH]; intros db.
  - exists []. simpl. now rewrite app_nil_r.
  - unfold serve_all. simpl fold_left.
    fold (serve_all env calls (fst (serve env db c))).
    destruct (IH (fst (serve env db c))) as [added [Hdocs Hlen]].
    destruct (serve_effect env c db) as [Hsame | [n [e [h [_ Hnew]]]]].
    + exists added. rewrite Hdocs, Hsame. split; [reflexivity|].
      simpl. lia.
    + exists (User.mkDoc (User.nextId db) n e h :: added).
      rewrite Hdocs, Hnew. simpl. rewrite <- List.app_assoc.
      split; [reflexivity | lia].
Qed.

(** X6: Served one after the other, the auth routes keep emails unique:
    when no two stored records share an email, none do after any list
    of requests, whether or not the schema has a unique index. *)
Theorem emails_stay_unique (env : Env) (calls : list Call)
    (db : User.Collection) :
  NoDup (emails db) -> NoDup (emails (serve_all env calls db)).
Proof.
  revert db. induction calls as [|c calls IH]; intros db Hdb.
  - exact Hdb.
  - unfold serve_all. simpl fold_left.
    fold (serve_all env calls (fst (serve env db c))).
    apply IH.
    destruct (serve_effect env c db) as [-> | [n [e [h [Hfresh ->]]]]];
      [exact Hdb|].
    unfold emails. simpl. rewrite map_app. simpl.
    apply NoDup_snoc; [exact Hdb|].
    now apply find_none_not_in.
Qed.

End WithPrimitives.

#[local] Existing Instance Toy.codec.
#[local] Existing Instance Toy.kdf.

(** Ada registers three times and logs in once: one record. *)
Lemma emails_stay_unique_witness :
  NoDup (emails
           (serve_all Toy.env
              [PostRegister Toy.world Toy.ada;
               PostRegister Toy.world Toy.ada;
               PostLogin Toy.world Toy.ada;
               PostRegister Toy.world Toy.ada]
              (Toy.empty false))).
Proof.
  apply (emails_stay_unique Toy.env _ (Toy.empty false)).
  constructor.
Defined.

End CollectionFacts.

(* ================================================================== *)
(** * Logging in, any time after registering *)
(* ================================================================== *)

Module LaterFacts.

Import Auth Api.

#[local] Arguments User.findOne : simpl never.
#[local] Arguments Jwt.sign : simpl never.

Lemma find_app_some {A} (f : A -> bool) (l l' : list A) (x : A) :
  find f l = Some x -> find f (l ++ l') = Some x.
Proof.
  induction l as [|y l IH]; simpl; [discriminate|].
  destruct (f y); [trivial | exact IH].
Qed.

Section WithPrimitives.

Context `{C : Jwt.Codec} `{K : Bcrypt.Kdf}.

Lemma serve_all_keeps (env : Env) (calls : list Call)
    (db : User.Collection) :
  exists added : list User.Doc,
    User.documents (serve_all env calls db)
    = (User.documents db ++ added)%list.
Proof.
  revert db. induction calls as [|c calls IH]; intros db.
  - exists []. simpl. now rewrite app_nil_r.
  - unfold serve_all. simpl fold_left.
    fold (serve_all env calls (fst (serve env db c))).
    destruct (IH (fst (serve env db c))) as [added Hdocs].
    destruct (CollectionFacts.serve_effect env c db)
      as [Hsame | [n [e [h [_ Hnew]]]]].
    + exists added. now rewrite Hdocs, Hsame.
    + exists (User.mkDoc (User.nextId db) n e h :: added).
      rewrite Hdocs, Hnew. simpl. now rewrite <- List.app_assoc.
Qed.

(** A stored user stays the one [findOne] finds for its email, whatever
    requests are served afterwards. *)
Lemma findOne_later (env : Env) (calls : list Call) (db : User.Collection)
    (e : string) (u : User.Doc) :
  User.findOne db (Some e) = Some u ->
  User.findOne (serve_all env calls db) (Some e) = Some u.
Proof.
  intros Hu. destruct (serve_all_keeps env calls db) as [added Hdocs].
  unfold User.findOne in *. rewrite Hdocs. now apply find_app_some.
Qed.

(** X2: Register, then log in: when the key derivation accepts the
    password it hashed, register answers 200 with the token and the
    new user's id, name and email, and every later login with the
    registered email and password, after any requests to the auth
    routes served in between, answers 200 with a token signed for
    that user and the same id, name and email, and writes nothing. *)
Theorem register_then_login (env : Env) (w : World)
    (db : User.Collection) (n e p key : string) :
  n <> EmptyString -> e <> EmptyString -> p <> EmptyString ->
  User.findOne db (Some e) = None ->
  JWT_SECRET env = Some key -> key <> EmptyString ->
  Bcrypt.compareSync p (Bcrypt.hashSync p (salt w)) = true ->
  exists token db',
    register env w (mkBody (Some n) (Some e) (Some p)) db
    = (db', Ok (mkResponse 200
         (JObj [("token", JStr token);
                ("user", JObj [("id", User.id_json (User.nextId db));
                               ("name", JStr n);
                               ("email", JStr e)])])))
    /\ forall (calls : list Call) (w2 : World) (n2 : option string),
         let later := serve_all env calls db' in
         exists token2,
           Jwt.sign (Jwt.mkClaims (User.nextId db) n e) (Some key) (now w2)
           = Ok token2
           /\ login env w2 (mkBody n2 (Some e) (Some p)) later
              = (later, Ok (mkResponse 200
                   (JObj [("token", JStr token2);
                          ("user",
                           JObj [("id", User.id_json (User.nextId db));
                                 ("name", JStr n);
                                 ("email", JStr e)])]))).
Proof.
  intros Hn He Hp Hfresh Hsecret Hkey Hcmp.
  destruct (RegisterFacts.register_fresh env w db n e p key
              Hn He Hp Hfresh Hsecret Hkey) as [token [_ Hreg]].
  exists token. eexists. split; [exact Hreg|].
  intros calls w2 n2 later.
  pose proof (findOne_later env calls _ e _
                (UserFacts.findOne_created db n e
                   (Bcrypt.hashSync p (salt w)) Hfresh)) as Hfound.
  fold later in Hfound.
  destruct (SessionFacts.login_accepted env w2 later
              (mkBody n2 (Some e) (Some p)) _ p key
              Hfound eq_refl Hcmp Hsecret Hkey) as [token2 [Hsign Hlogin]].
  exists token2. split; [exact Hsign | exact Hlogin].
Qed.

End WithPrimitives.

#[local] Existing Instance Toy.codec.
#[local] Existing Instance Toy.kdf.

(** Ada registers; Bob registers and Ada mistypes her password; then
    Ada logs in. *)
Lemma register_then_login_witness :
  exists token2,
    login Toy.env (mkWorld 1700000500000 "other")
      (mkBody None (Some "ada@example.com") (Some "secret123"))
      (serve_all Toy.env
         [PostRegister Toy.world
            (mkBody (Some "Bob") (Some "bob@example.com") (Some "hunter2"));
          PostLogin Toy.world
            (mkBody None (Some "ada@example.com") (Some "secret124"))]
         (Toy.with_ada true))
    = (serve_all Toy.env
         [PostRegister Toy.world
            (mkBody (Some "Bob") (Some "bob@example.com") (Some "hunter2"));
          PostLogin Toy.world
            (mkBody None (Some "ada@example.com") (Some "secret124"))]
         (Toy.with_ada true),
       Ok (mkResponse 200
             (JObj [("token", JStr token2);
                    ("user", JObj [("id", JStr "0x1");
                                   ("name", JStr "Ada");
                                   ("email", JStr "ada@example.com")])]))).
Proof.
  assert (Hn : "Ada" <> EmptyString) by discriminate.
  assert (He : "ada@example.com" <> EmptyString) by discriminate.
  assert (Hp : "secret123" <> EmptyString) by discriminate.
  assert (Hk : "s3cret" <> EmptyString) by discriminate.
  destruct (@register_then_login Toy.codec Toy.kdf Toy.env Toy.world
              (Toy.empty true) "Ada" "ada@example.com" "secret123" "s3cret"
              Hn He Hp eq_refl eq_refl Hk eq_refl)
    as [token [db' [Hreg Hlater]]].
  vm_compute in Hreg. injection Hreg as Hdb _. subst db'.
  destruct (Hlater
              [PostRegister Toy.world
                 (mkBody (Some "Bob") (Some "bob@example.com")
                    (Some "hunter2"));
               PostLogin Toy.world
                 (mkBody None (Some "ada@example.com") (Some "secret124"))]
              (mkWorld 1700000500000 "other") None)
    as [token2 [_ Hlogin]].
  exists token2. exact Hlogin.
Defined.

End LaterFacts.

(* ================================================================== *)
(** * The guard: header shape, token lifetime, foreign keys *)
(* ================================================================== *)

Module GuardBounds.

Import Auth.

#[local] Arguments Jwt.verify : simpl never.

Lemma startsWith_split (p h : string) :
  Str.startsWith p h = true -> h = p ++ Str.slice (String.length p) h.
Proof.
  unfold Str.startsWith. revert h.
  induction p as [|a p IH]; intros h Hp.
  - reflexivity.
  - destruct h as [|b h]; [discriminate|].
    simpl in Hp. destruct (ascii_dec a b) as [->|]; [|discriminate].
    simpl. f_equal. now apply IH.
Qed.

Section WithCodec.

Context `{C : Jwt.Codec}.

(** X7: The guard answers 401 Missing token exactly when the
    authorization header is not the seven characters [Bearer ]
    (capital B, one space) followed by at least one more character:
    no header, another scheme, another spelling of the scheme, or
    nothing after the space. *)
Theorem missing_token_iff (env : Env) (w : World) (req : Request) :
  authMiddleware env w req
  = Rejected (mkResponse 401 (JObj [("message", JStr "Missing token")]))
  <-> ~ exists t, t <> EmptyString
                  /\ authorization req = Some ("Bearer " ++ t).
Proof.
  split.
  - intros Hg [t [Hne Hheader]].
    unfold authMiddleware in Hg.
    rewrite (GuardFacts.token_of_bearer req t Hheader) in Hg.
    simpl in Hg. apply String.eqb_neq in Hne. rewrite Hne in Hg.
    destruct (Jwt.verify _ _ _); simpl in Hg; discriminate.
  - intros Hnone. apply GuardFacts.guard_missing.
    unfold token_of.
    destruct (authorization req) as [h|] eqn:Hheader; [|reflexivity].
    destruct (Str.startsWith "Bearer " h) eqn:Hprefix; [|reflexivity].
    cbn [falsy_str]. destruct (Str.slice 7 h =? EmptyString) eqn:Hrest;
      [reflexivity|].
    exfalso. apply Hnone. exists (Str.slice 7 h).
    apply String.eqb_neq in Hrest. split; [exact Hrest|].
    f_equal. exact (startsWith_split "Bearer " h Hprefix).
Qed.

Context (L : Jwt.CodecLaws C).

(** X8: A token the routes issued is good for exactly seven days of the
    server clock: the guard lets it through, with the signed id, at
    every clock second before [iat + 604800], and answers 401 Invalid
    token from that second on. *)
Theorem issued_token_lifetime (env : Env) (w w' : World) (req : Request)
    (c : Jwt.Claims) (key token : string) :
  JWT_SECRET env = Some key -> key <> EmptyString ->
  Jwt.sign c (Some key) (now w) = Ok token ->
  authorization req = Some ("Bearer " ++ token) ->
  authMiddleware env w' req
  = if (Jwt.clockTimestamp (now w')
        <? Jwt.clockTimestamp (now w) + 604800)%Z
    then Next (Jwt.id c)
    else Rejected (mkResponse 401 (JObj [("message", JStr "Invalid token")])).
Proof.
  intros Hsecret Hkey Hsign Hheader.
  destruct (Jwt.clockTimestamp (now w')
            <? Jwt.clockTimestamp (now w) + 604800)%Z eqn:Hlt.
  - apply Z.ltb_lt in Hlt.
    now apply (GuardFacts.guard_accepts_issued L env w w' req c key token).
  - apply Z.ltb_ge in Hlt.
    rewrite (JwtFacts.sign_eq c key (now w) Hkey) in Hsign.
    cbv zeta in Hsign. injection Hsign as Htoken.
    set (payload := Jwt.mkPayload c (Jwt.clockTimestamp (now w))
                      (Jwt.clockTimestamp (now w) + Jwt.expiresIn_7d))
      in Htoken.
    set (input := Jwt.encode_header Jwt.HS256 ++ "." ++
                  Jwt.encode_payload payload) in Htoken.
    assert (Hbad : Jwt.Bad (JWT_SECRET env) (now w') token).
    { apply (Jwt.Expired _ _ token (Jwt.encode_header Jwt.HS256)
               (Jwt.encode_payload payload)
               (Jwt.mac Jwt.HS256 key input) payload).
      - rewrite <- Htoken. unfold input.
        apply StrFacts.split_three;
          [apply Jwt.header_lacks_dot | apply Jwt.payload_lacks_dot
          | apply Jwt.mac_lacks_dot].
      - apply Jwt.decode_encode_payload.
      - exact Hlt. }
    destruct (JwtFacts.verify_bad _ _ (now w') _ Hbad (Z.le_refl _))
      as [e He].
    apply (GuardFacts.guard_invalid env w' req token e
             (GuardFacts.token_of_bearer req token Hheader)); [|exact He].
    rewrite <- Htoken.
    change ("." ++ Jwt.mac Jwt.HS256 key input)
      with (String "." (Jwt.mac Jwt.HS256 key input)).
    apply String.eqb_neq. apply StrFacts.app_not_empty.
Qed.

(** X9: A token signed under one key is turned away by a server that
    holds another key, at every time, when the two keys give
    different signatures for the token's header and payload. *)
Theorem foreign_token_rejected (env : Env) (w w' : World) (req : Request)
    (c : Jwt.Claims) (key key' token : string) :
  key <> EmptyString ->
  Jwt.sign c (Some key) (now w) = Ok token ->
  authorization req = Some ("Bearer " ++ token) ->
  JWT_SECRET env = Some key' ->
  (let payload := Jwt.mkPayload c (Jwt.clockTimestamp (now w))
                    (Jwt.clockTimestamp (now w) + 604800) in
   let input := Jwt.encode_header Jwt.HS256 ++ "." ++
                Jwt.encode_payload payload in
   Jwt.mac Jwt.HS256 key input <> Jwt.mac Jwt.HS256 key' input) ->
  authMiddleware env w' req
  = Rejected (mkResponse 401 (JObj [("message", JStr "Invalid token")])).
Proof.
  intros Hkey Hsign Hheader Hsecret Hdiff. cbv zeta in Hdiff.
  rewrite (JwtFacts.sign_eq c key (now w) Hkey) in Hsign.
  cbv zeta in Hsign. injection Hsign as Htoken.
  change (Jwt.clockTimestamp (now w) + 604800)%Z
    with (Jwt.clockTimestamp (now w) + Jwt.expiresIn_7d)%Z in Hdiff.
  set (payload := Jwt.mkPayload c (Jwt.clockTimestamp (now w))
                    (Jwt.clockTimestamp (now w) + Jwt.expiresIn_7d)) in *.
  set (input := Jwt.encode_header Jwt.HS256 ++ "." ++
                Jwt.encode_payload payload) in *.
  assert (Hbad : Jwt.Bad (JWT_SECRET env) (now w') token).
  { apply (Jwt.Tampered _ _ token (Jwt.encode_header Jwt.HS256)
             (Jwt.encode_payload payload)
             (Jwt.mac Jwt.HS256 key input) Jwt.HS256).
    - rewrite <- Htoken. unfold input.
      apply StrFacts.split_three;
        [apply Jwt.header_lacks_dot | apply Jwt.payload_lacks_dot
        | apply Jwt.mac_lacks_dot].
    - apply Jwt.decode_encode_header.
    - rewrite Hsecret. exact Hdiff. }
  destruct (JwtFacts.verify_bad _ _ (now w') _ Hbad (Z.le_refl _))
    as [e He].
  apply (GuardFacts.guard_invalid env w' req token e
           (GuardFacts.token_of_bearer req token Hheader)); [|exact He].
  rewrite <- Htoken.
  change ("." ++ Jwt.mac Jwt.HS256 key input)
    with (String "." (Jwt.mac Jwt.HS256 key input)).
  apply String.eqb_neq. apply StrFacts.app_not_empty.
Qed.

End WithCodec.

#[local] Existing Instance Toy.codec.

(** Ada's token one second before it expires and at the second it
    does. *)
Lemma issued_token_lifetime_witness :
  authMiddleware Toy.env (mkWorld 1700604799999 "salt")
    (Toy.bearer Toy.ada_token) = Next 1%N
  /\ authMiddleware Toy.env (mkWorld 1700604800000 "salt")
       (Toy.bearer Toy.ada_token)
     = Rejected (mkResponse 401 (JObj [("message", JStr "Invalid token")])).
Proof.
  assert (Hk : "s3cret" <> EmptyString) by discriminate.
  split.
  - apply (issued_token_lifetime ToyFacts.codec_laws Toy.env Toy.world
             (mkWorld 1700604799999 "salt") (Toy.bearer Toy.ada_token)
             (Jwt.mkClaims 1%N "Ada" "ada@example.com") "s3cret"
             Toy.ada_token eq_refl Hk eq_refl eq_refl).
  - apply (issued_token_lifetime ToyFacts.codec_laws Toy.env Toy.world
             (mkWorld 1700604800000 "salt") (Toy.bearer Toy.ada_token)
             (Jwt.mkClaims 1%N "Ada" "ada@example.com") "s3cret"
             Toy.ada_token eq_refl Hk eq_refl eq_refl).
Defined.

(** Ada's token at a server whose secret was changed. *)
Lemma foreign_token_rejected_witness :
  authMiddleware (mkEnv (Some "rotated") None None None) Toy.world
    (Toy.bearer Toy.ada_token)
  = Rejected (mkResponse 401 (JObj [("message", JStr "Invalid token")])).
Proof.
  assert (Hk : "s3cret" <> EmptyString) by discriminate.
  apply (foreign_token_rejected ToyFacts.codec_laws
           (mkEnv (Some "rotated") None None None) Toy.world Toy.world
           (Toy.bearer Toy.ada_token)
           (Jwt.mkClaims 1%N "Ada" "ada@example.com") "s3cret" "rotated"
           Toy.ada_token Hk eq_refl eq_refl eq_refl).
  cbv zeta. apply String.eqb_neq. vm_compute. reflexivity.
Defined.

End GuardBounds.

(* ================================================================== *)
(** * The relay and the chat panel *)
(* ================================================================== *)

Module RelayFacts.

Import Chatbot.

Lemma relay_failed (env : Env) (net : string -> json -> Upstream)
    (b : json) :
  failed (net (url env) (payload (prop "message" (Some b)))) = true ->
  relay env net (Some b) = failure_response.
Proof.
  intros H. unfold relay. cbn [bind].
  destruct (ChatbotFacts.axios_post_failed _ H) as [e ->]. reflexivity.
Qed.

Lemma relay_without_text (env : Env) (net : string -> json -> Upstream)
    (b : json) :
  success_without_text (net (url env) (payload (prop "message" (Some b))))
  = true ->
  relay env net (Some b) = res_json (JObj [("reply", JStr fallback_reply)]).
Proof.
  intros H. unfold relay. cbn [bind].
  destruct (net _ _) as [m|code data]; [discriminate|].
  simpl in H. apply andb_true_iff in H as [Hcode Htext].
  rewrite (ChatbotFacts.axios_post_success _ _ Hcode). simpl.
  apply negb_true_iff in Htext. unfold or_else. rewrite Htext.
  reflexivity.
Qed.

(** X10: The relay answers with the text of the first part of the first
    candidate, whatever other candidates, parts and properties the
    provider's body has. *)
Theorem relay_first_candidate (env : Env)
    (net : string -> json -> Upstream) (b : json) (code : Z)
    (fields cand content part : list (string * json))
    (more_candidates more_parts : list json) (text : string) :
  net (url env) (payload (prop "message" (Some b)))
  = HttpResponse code (JObj fields) ->
  (200 <= code < 300)%Z ->
  assoc "candidates" fields = Some (JArr (JObj cand :: more_candidates)) ->
  assoc "content" cand = Some (JObj content) ->
  assoc "parts" content = Some (JArr (JObj part :: more_parts)) ->
  assoc "text" part = Some (JStr text) ->
  text <> EmptyString ->
  relay env net (Some b) = mkResponse 200 (JObj [("reply", JStr text)]).
Proof.
  intros Hnet Hcode Hcands Hcontent Hparts Htext Hnonempty.
  unfold relay. cbn [bind]. rewrite Hnet.
  rewrite ChatbotFacts.axios_post_success
    by (apply andb_true_iff; split; [apply Z.leb_le | apply Z.ltb_lt]; lia).
  cbn [bind]. unfold first_candidate_text.
  cbn [prop]. rewrite Hcands. cbn [first nth_error prop].
  rewrite Hcontent. cbn [prop]. rewrite Hparts. cbn [first nth_error prop].
  rewrite Htext. unfold or_else. cbn [truthy].
  apply String.eqb_neq in Hnonempty. rewrite Hnonempty. reflexivity.
Qed.

Lemma relay_first_candidate_witness :
  relay Toy.env
    (fun _ _ => HttpResponse 200
       (JObj [("usageMetadata", JObj []);
              ("candidates",
               JArr [JObj [("index", JNum 0);
                           ("content",
                            JObj [("role", JStr "model");
                                  ("parts",
                                   JArr [JObj [("text", JStr "Save more.")];
                                         JObj [("text", JStr "Or less.")]])])];
                     JObj [("content", JNull)]])]))
    (Some (JObj [("message", JStr "hello")]))
  = mkResponse 200 (JObj [("reply", JStr "Save more.")]).
Proof.
  eapply (relay_first_candidate Toy.env _ (JObj [("message", JStr "hello")])
            200).
  - reflexivity.
  - lia.
  - reflexivity.
  - reflexivity.
  - reflexivity.
  - reflexivity.
  - discriminate.
Defined.

(** X11: What [sendMessage] does to the panel: nothing when the input is
    blank; otherwise it shows the user's message, and then either the
    user's message once more followed by the reply, with the input
    cleared, or the fixed error text, with the input kept.  It never
    leaves the panel loading. *)
Theorem sendMessage_outcomes (net : json -> Upstream) (p : Client.Panel) :
  let sent := JObj [("message", JStr (Client.input p))] in
  let user := ("user", Some (JStr (Client.input p))) in
  (Client.blank (Client.input p) = true -> Client.sendMessage net p = p)
  /\ (Client.blank (Client.input p) = false ->
      forall data reply,
        axios_post (net sent) = Ok data ->
        Client.member "reply" data = Ok reply ->
        Client.sendMessage net p
        = Client.mkPanel EmptyString
            (Client.messages p ++ [user; user; ("bot", reply)]) false)
  /\ (Client.blank (Client.input p) = false ->
      (exists e, axios_post (net sent) = Throw e)
      \/ (axios_post (net sent) = Ok JNull) ->
      Client.sendMessage net p
      = Client.mkPanel (Client.input p)
          (Client.messages p
           ++ [user; ("bot", Some (JStr "⚠️ Error contacting Gemini API."))])
          false).
Proof.
  cbv zeta. unfold Client.sendMessage. split; [|split].
  - intros ->. reflexivity.
  - intros -> data reply -> Hreply. cbn [bind]. rewrite Hreply.
    cbn [bind try_catch]. rewrite <- List.app_assoc. reflexivity.
  - intros -> [[e ->] | ->]; cbn [bind try_catch Client.member];
      rewrite <- List.app_assoc; reflexivity.
Qed.

Lemma sendMessage_outcomes_witness :
  Client.sendMessage (fun _ => HttpResponse 200 (JObj [("reply", JStr "Hi")]))
    (Client.mkPanel "hello" [("bot", Some (JStr "Welcome"))] false)
  = Client.mkPanel EmptyString
      [("bot", Some (JStr "Welcome")); ("user", Some (JStr "hello"));
       ("user", Some (JStr "hello")); ("bot", Some (JStr "Hi"))] false.
Proof.
  apply (proj1 (proj2 (sendMessage_outcomes
                         (fun _ => HttpResponse 200 (JObj [("reply", JStr "Hi")]))
                         (Client.mkPanel "hello"
                            [("bot", Some (JStr "Welcome"))] false)))
           eq_refl (JObj [("reply", JStr "Hi")]) (Some (JStr "Hi"))
           eq_refl eq_refl).
Defined.

(** X12: The panel against the relay: when the provider is unreachable or
    answers with a non-success status, the panel shows its own fixed
    error text, and neither the provider's error nor the relay's; when
    the provider answers without a first textual candidate, the panel
    shows the relay's fallback reply. *)
Theorem panel_shows_no_provider_error (env : Env)
    (provider : string -> json -> Upstream) (p : Client.Panel) :
  let up := provider (url env) (payload (Some (JStr (Client.input p)))) in
  let user := ("user", Some (JStr (Client.input p))) in
  Client.blank (Client.input p) = false ->
  (failed up = true ->
   Client.sendMessage_at env provider p
   = Client.mkPanel (Client.input p)
       (Client.messages p
        ++ [user; ("bot", Some (JStr "⚠️ Error contacting Gemini API."))])
       false)
  /\ (success_without_text up = true ->
      Client.sendMessage_at env provider p
      = Client.mkPanel EmptyString
          (Client.messages p
           ++ [user; user;
               ("bot", Some (JStr "Sorry, I couldn’t generate a response."))])
          false).
Proof.
  cbv zeta. intros Hblank.
  unfold Client.sendMessage_at, Client.sendMessage. rewrite Hblank.
  split; intros Hup.
  - rewrite (relay_failed env provider
               (JObj [("message", JStr (Client.input p))]) Hup).
    simpl. rewrite <- List.app_assoc. reflexivity.
  - rewrite (relay_without_text env provider
               (JObj [("message", JStr (Client.input p))]) Hup).
    simpl. rewrite <- List.app_assoc. reflexivity.
Qed.

Lemma panel_shows_no_provider_error_witness :
  Client.sendMessage_at Toy.env
    (fun _ _ => TransportFailure "getaddrinfo ENOTFOUND")
    (Client.mkPanel "hello" [] false)
  = Client.mkPanel "hello"
      [("user", Some (JStr "hello"));
       ("bot", Some (JStr "⚠️ Error contacting Gemini API."))] false.
Proof.
  apply (proj1 (panel_shows_no_provider_error Toy.env
                  (fun _ _ => TransportFailure "getaddrinfo ENOTFOUND")
                  (Client.mkPanel "hello" [] false) eq_refl)).
  reflexivity.
Defined.

End RelayFacts.

(* ================================================================== *)
(** * The pages against the auth routes *)
(* ================================================================== *)

Module BrowserFacts.

Import Client.

#[local] Arguments User.findOne : simpl never.
#[local] Arguments User.findById : simpl never.
#[local] Arguments User.create : simpl never.
#[local] Arguments Jwt.sign : simpl never.
#[local] Arguments Jwt.verify : simpl never.

Lemma normalize_bearer (t : string) :
  normalize ("Bearer " ++ t)
  = if strip_end t =? EmptyString then "Bearer"
    else "Bearer " ++ strip_end t.
Proof.
  unfold normalize. simpl. destruct (strip_end t); reflexivity.
Qed.


Lemma headers_with_token (br : Browser) (t : string) :
  token br = Some t -> t <> EmptyString ->
  get_request (authHeaders br [])
  = Auth.mkRequest (Some (normalize ("Bearer " ++ t)))
      (Auth.mkBody None None None).
Proof.
  intros Ht Hne. unfold authHeaders. rewrite Ht. cbn [falsy_str Auth.str].
  apply String.eqb_neq in Hne. rewrite Hne. reflexivity.
Qed.

(** A token that does not end in white space travels unchanged. *)
Lemma headers_with_clean_token (br : Browser) (t : string) :
  token br = Some t -> t <> EmptyString -> strip_end t = t ->
  get_request (authHeaders br [])
  = Auth.mkRequest (Some ("Bearer " ++ t)) (Auth.mkBody None None None).
Proof.
  intros Ht Hne Hclean. rewrite (headers_with_token br t Ht Hne).
  rewrite normalize_bearer, Hclean.
  apply String.eqb_neq in Hne. rewrite Hne. reflexivity.
Qed.



(** X14: After [handleLogout] the browser holds no token and is at the
    login page, and a request built with [authHeaders] is answered 401
    Missing token. *)
Theorem logout_ends_browser_session `{C : Jwt.Codec} (br : Browser)
    (env : Env) (w : Auth.World) :
  handleLogout br
  = mkBrowser None "/login" (app_user br) (Some JNull) (alerts br)
  /\ Auth.authMiddleware env w (get_request (authHeaders (handleLogout br) []))
     = Auth.Rejected
         (mkResponse 401 (JObj [("message", JStr "Missing token")])).
Proof.
  split; reflexivity.
Qed.

Section WithPrimitives.

Context `{C : Jwt.Codec} `{K : Bcrypt.Kdf} `{N : NumberToString}.

Lemma login_at_answer (env : Env) (w : Auth.World) (db : User.Collection)
    (email password : string) (br : Browser) (r : Response) :
  Auth.login env w (Auth.mkBody None (Some email) (Some password)) db
  = (db, Ok r) ->
  login_at env w db email password br
  = try (
      if ok (status r) then
        t <- member "token" (body r) ;;
        Ok (navigate "/" (setItem (to_string t) br))
      else
        m <- member "message" (body r) ;;
        Ok (alert (to_string (or_else m (Some (JStr "Invalid credentials"))))
              br)
    ) catch (fun _ => alert "Server error. Please try again." br).
Proof.
  intros Hlogin. unfold login_at, login_handleSubmit.
  change (body_of (JObj [("email", JStr email); ("password", JStr password)]))
    with (Auth.mkBody None (Some email) (Some password)).
  rewrite Hlogin. reflexivity.
Qed.

Lemma login_at_accepted (env : Env) (w : Auth.World)
    (db : User.Collection) (email password : string) (br : Browser)
    (u : User.Doc) (key : string) :
  User.findOne db (Some email) = Some u ->
  Bcrypt.compareSync password (User.passwordHash u) = true ->
  JWT_SECRET env = Some key -> key <> EmptyString ->
  exists t,
    Jwt.sign (Jwt.mkClaims (User._id u) (User.name u) (User.email u))
      (Some key) (Auth.now w) = Ok t
    /\ login_at env w db email password br
       = mkBrowser (Some t) "/" (app_user br) (layout_user br) (alerts br).
Proof.
  intros Hu Hcmp Hsecret Hkey.
  destruct (SessionFacts.login_accepted env w db
              (Auth.mkBody None (Some email) (Some password)) u password key
              Hu eq_refl Hcmp Hsecret Hkey) as [t [Hsign Hlogin]].
  exists t. split; [exact Hsign|].
  rewrite (login_at_answer env w db email password br _ Hlogin).
  reflexivity.
Qed.

(** X15: The login form against the server.  Rejected credentials (an
    unknown email, or a password the hash comparison refuses) put the
    server's Invalid credentials in an alert and change nothing else:
    no token is stored and the page stays.  Accepted credentials store
    the token the server signed for the user and go to the home
    page. *)
Theorem login_form_outcomes (env : Env) (w : Auth.World)
    (db : User.Collection) (email password : string) (br : Browser) :
  ((User.findOne db (Some email) = None
    \/ exists u, User.findOne db (Some email) = Some u
                 /\ Bcrypt.compareSync password (User.passwordHash u) = false) ->
   login_at env w db email password br
   = mkBrowser (token br) (location br) (app_user br) (layout_user br)
       (alerts br ++ ["Invalid credentials"]))
  /\ (forall u key,
        User.findOne db (Some email) = Some u ->
        Bcrypt.compareSync password (User.passwordHash u) = true ->
        JWT_SECRET env = Some key -> key <> EmptyString ->
        exists t,
          Jwt.sign (Jwt.mkClaims (User._id u) (User.name u) (User.email u))
            (Some key) (Auth.now w) = Ok t
          /\ login_at env w db email password br
             = mkBrowser (Some t) "/" (app_user br) (layout_user br)
                 (alerts br)).
Proof.
  split.
  - intros Hrejected.
    rewrite (login_at_answer env w db email password br
               Auth.invalid_credentials); [reflexivity|].
    destruct Hrejected as [Hnone | [u [Hu Hcmp]]].
    + now apply AuthFacts.login_unknown_email.
    + now apply (AuthFacts.login_wrong_password env w db _ u password).
  - intros u key. apply login_at_accepted.
Qed.

(** X16: Logging in through the form opens a session: a request built with
    [authHeaders] from the browser the form leaves, sent before the
    token expires, passes the guard, and me answers with the id, name
    and email of the user who logged in.  (The token the server signs
    does not end in white space, as no base64url text does; HTTP would
    remove it from the header.) *)
Theorem form_login_opens_session (L : Jwt.CodecLaws C) (env : Env)
    (w w' : Auth.World) (db : User.Collection) (email password : string)
    (br : Browser) (u : User.Doc) (key : string) :
  User.findOne db (Some email) = Some u ->
  User.findById db (User._id u) = Some u ->
  Bcrypt.compareSync password (User.passwordHash u) = true ->
  JWT_SECRET env = Some key -> key <> EmptyString ->
  (forall t,
     Jwt.sign (Jwt.mkClaims (User._id u) (User.name u) (User.email u))
       (Some key) (Auth.now w) = Ok t ->
     strip_end t = t) ->
  (Jwt.clockTimestamp (Auth.now w')
   < Jwt.clockTimestamp (Auth.now w) + 604800)%Z ->
  Auth.me env w'
    (get_request (authHeaders (login_at env w db email password br) [])) db
  = (db, Ok (mkResponse 200
       (JObj [("user", JObj [("_id", User.id_json (User._id u));
                             ("name", JStr (User.name u));
                             ("email", JStr (User.email u))])]))).
Proof.
  intros Hu Hid Hcmp Hsecret Hkey Hclean Hwindow.
  destruct (login_at_accepted env w db email password br u key
              Hu Hcmp Hsecret Hkey) as [t [Hsign ->]].
  assert (Hne : t <> EmptyString).
  { pose proof Hsign as Hshape.
    rewrite (JwtFacts.sign_eq _ key (Auth.now w) Hkey) in Hshape.
    cbv zeta in Hshape. injection Hshape as <-.
    change ("." ++ Jwt.mac Jwt.HS256 key ?x)
      with (String "." (Jwt.mac Jwt.HS256 key x)).
    apply String.eqb_neq. apply StrFacts.app_not_empty. }
  rewrite (headers_with_clean_token
             (mkBrowser (Some t) "/" (app_user br) (layout_user br) (alerts br))
             t eq_refl Hne (Hclean t Hsign)).
  rewrite (MeFacts.me_accepted env w' _ db (User._id u)).
  - rewrite Hid. reflexivity.
  - apply (GuardFacts.guard_accepts_issued L env w w'
             (Auth.mkRequest (Some ("Bearer " ++ t))
                (Auth.mkBody None None None))
             (Jwt.mkClaims (User._id u) (User.name u) (User.email u))
             key t Hsecret Hkey Hsign eq_refl).
    exact Hwindow.
Qed.

Lemma register_at_answer (env : Env) (w : Auth.World) (db db' : User.Collection)
    (name email password : string) (br : Browser) (r : Response) :
  Auth.register env w
    (Auth.mkBody (Some name) (Some email) (Some password)) db
  = (db', Ok r) ->
  register_at env w db name email password br
  = (db',
     try (
       if ok (status r) then
         t <- member "token" (body r) ;;
         u <- member "user" (body r) ;;
         Ok (navigate "/dashboard"
               (set_app_user u (setItem (to_string t) br)))
       else
         m <- member "message" (body r) ;;
         Ok (alert (to_string (or_else m (Some (JStr "Registration failed"))))
               br)
     ) catch (fun _ => alert "Server error. Please try again." br)).
Proof.
  intros Hreg. unfold register_at, register_handleSubmit. cbv zeta.
  change (body_of (JObj [("name", JStr name); ("email", JStr email);
                         ("password", JStr password)]))
    with (Auth.mkBody (Some name) (Some email) (Some password)).
  rewrite Hreg. reflexivity.
Qed.

(** X17: The register form against the server.  Submitted with an empty
    field it shows the server's All fields are required; with an email
    that is taken, Email already in use; in both cases nothing is
    stored, in the browser or in the collection, and the page stays.
    With all fields and a fresh email the user is stored, the browser
    keeps the signed token and the user's id, name and email, and goes
    to the dashboard. *)
Theorem register_form_outcomes (env : Env) (w : Auth.World)
    (db : User.Collection) (name email password : string) (br : Browser) :
  (name = EmptyString \/ email = EmptyString \/ password = EmptyString ->
   register_at env w db name email password br
   = (db, mkBrowser (token br) (location br) (app_user br) (layout_user br)
            (alerts br ++ ["All fields are required"])))
  /\ (name <> EmptyString -> email <> EmptyString -> password <> EmptyString ->
      (forall u, User.findOne db (Some email) = Some u ->
         register_at env w db name email password br
         = (db, mkBrowser (token br) (location br) (app_user br)
                  (layout_user br)
                  (alerts br ++ ["Email already in use"])))
      /\ (forall key,
            User.findOne db (Some email) = None ->
            JWT_SECRET env = Some key -> key <> EmptyString ->
            exists t,
              Jwt.sign (Jwt.mkClaims (User.nextId db) name email)
                (Some key) (Auth.now w) = Ok t
              /\ register_at env w db name email password br
                 = (User.mkCollection
                      (User.documents db
                       ++ [User.mkDoc (User.nextId db) name email
                             (Bcrypt.hashSync password (Auth.salt w))])
                      (N.succ (User.nextId db)) (User.uniqueEmail db),
                    mkBrowser (Some t) "/dashboard"
                      (Some (JObj [("id", User.id_json (User.nextId db));
                                   ("name", JStr name);
                                   ("email", JStr email)]))
                      (layout_user br) (alerts br)))).
Proof.
  split; [|intros Hn He Hp; split].
  - intros Hempty.
    rewrite (register_at_answer env w db db name email password br
               (res_status_json 400 (Auth.message "All fields are required")));
      [reflexivity|].
    apply RegisterFacts.register_missing_field. simpl.
    destruct Hempty as [-> | [-> | ->]]; simpl;
      rewrite ?orb_true_r; reflexivity.
  - intros u Hu.
    rewrite (register_at_answer env w db db name email password br
               (res_status_json 400 (Auth.message "Email already in use")));
      [reflexivity|].
    apply (RegisterFacts.register_email_in_use env w db _ u); [|exact Hu].
    apply String.eqb_neq in Hn, He, Hp. simpl. now rewrite Hn, He, Hp.
  - intros key Hfresh Hsecret Hkey.
    destruct (RegisterFacts.register_fresh env w db name email password key
                Hn He Hp Hfresh Hsecret Hkey) as [t [Hsign Hreg]].
    exists t. split; [exact Hsign|].
    rewrite (register_at_answer env w db _ name email password br _ Hreg).
    reflexivity.
Qed.

End WithPrimitives.

Section Layout.

Context `{C : Jwt.Codec} `{N : NumberToString} `{A : Atob}.

(** X18: The fetch Layout makes when the browser holds no token can never
    find a user: the header it sends is [Bearer null] (or [Bearer ]
    for an empty entry), the server answers 401 whatever its secret
    and its collection are, and the layout is left as it was. *)
Theorem layout_fallback_finds_no_user (env : Env) (w : Auth.World)
    (db : User.Collection) (br : Browser) :
  falsy_str (token br) = true ->
  layout_at env w db br = br
  /\ forall h, h = "Bearer " ++ item_string (token br) ->
       exists m,
         snd (Auth.me env w
                (Auth.mkRequest (Some h) (Auth.mkBody None None None)) db)
         = Ok (mkResponse 401 (JObj [("message", JStr m)])).
Proof.
  intros Ht. unfold layout_at, layout_effect. rewrite Ht. cbn [negb].
  destruct (token br) as [t|].
  - simpl in Ht. apply String.eqb_eq in Ht. subst t.
    split; [reflexivity|]. intros h ->. eexists. reflexivity.
  - split; [reflexivity|]. intros h ->. eexists. reflexivity.
Qed.

End Layout.

#[local] Existing Instance Toy.codec.
#[local] Existing Instance Toy.kdf.
#[local] Existing Instance ToyClient.number_text.
#[local] Existing Instance ToyClient.atob.


Lemma login_form_outcomes_witness :
  login_at Toy.env Toy.world (Toy.with_ada true)
    "ada@example.com" "letmein" ToyClient.fresh
  = mkBrowser None "/login" (Some JNull) (Some JNull) ["Invalid credentials"]
  /\ login_at Toy.env Toy.world (Toy.with_ada true)
       "ada@example.com" "secret123" ToyClient.fresh
     = mkBrowser (Some Toy.ada_token) "/" (Some JNull) (Some JNull) [].
Proof.
  split.
  - apply (proj1 (login_form_outcomes Toy.env Toy.world (Toy.with_ada true)
                    "ada@example.com" "letmein" ToyClient.fresh)).
    right. exists (User.mkDoc 1%N "Ada" "ada@example.com"
                     (Toy.toy_hash "secret123" "salt")).
    split; reflexivity.
  - assert (Hk : "s3cret" <> EmptyString) by discriminate.
    destruct (proj2 (@login_form_outcomes Toy.codec Toy.kdf
                       ToyClient.number_text Toy.env Toy.world
                       (Toy.with_ada true)
                       "ada@example.com" "secret123" ToyClient.fresh)
                (User.mkDoc 1%N "Ada" "ada@example.com"
                   (Toy.toy_hash "secret123" "salt"))
                "s3cret" eq_refl eq_refl eq_refl Hk) as [t [Hsign Hat]].
    vm_compute in Hsign. injection Hsign as <-. exact Hat.
Defined.

Lemma form_login_opens_session_witness :
  Auth.me Toy.env (Auth.mkWorld 1700000500000 "other")
    (get_request
       (authHeaders
          (login_at Toy.env Toy.world (Toy.with_ada true)
             "ada@example.com" "secret123" ToyClient.fresh) []))
    (Toy.with_ada true)
  = (Toy.with_ada true,
     Ok (mkResponse 200
           (JObj [("user", JObj [("_id", JStr "0x1");
                                 ("name", JStr "Ada");
                                 ("email", JStr "ada@example.com")])]))).
Proof.
  assert (Hk : "s3cret" <> EmptyString) by discriminate.
  apply (@form_login_opens_session Toy.codec Toy.kdf ToyClient.number_text
           ToyFacts.codec_laws Toy.env Toy.world
           (Auth.mkWorld 1700000500000 "other") (Toy.with_ada true)
           "ada@example.com" "secret123" ToyClient.fresh
           (User.mkDoc 1%N "Ada" "ada@example.com"
              (Toy.toy_hash "secret123" "salt"))
           "s3cret" eq_refl eq_refl eq_refl eq_refl Hk).
  - intros t Hsign. vm_compute in Hsign. injection Hsign as <-.
    vm_compute. reflexivity.
  - reflexivity.
Defined.

Lemma register_form_outcomes_witness :
  register_at Toy.env Toy.world (Toy.empty true) "Ada" EmptyString
    "secret123" ToyClient.fresh
  = (Toy.empty true,
     mkBrowser None "/login" (Some JNull) (Some JNull)
       ["All fields are required"])
  /\ register_at Toy.env Toy.world (Toy.with_ada true) "Ada"
       "ada@example.com" "secret123" ToyClient.fresh
     = (Toy.with_ada true,
        mkBrowser None "/login" (Some JNull) (Some JNull)
          ["Email already in use"]).
Proof.
  split.
  - apply (proj1 (register_form_outcomes Toy.env Toy.world (Toy.empty true)
                    "Ada" EmptyString "secret123" ToyClient.fresh)).
    right. left. reflexivity.
  - assert (Hn : "Ada" <> EmptyString) by discriminate.
    assert (He : "ada@example.com" <> EmptyString) by discriminate.
    assert (Hp : "secret123" <> EmptyString) by discriminate.
    apply (proj1 (proj2 (register_form_outcomes Toy.env Toy.world
                           (Toy.with_ada true) "Ada" "ada@example.com"
                           "secret123" ToyClient.fresh) Hn He Hp)
             (User.mkDoc 1%N "Ada" "ada@example.com"
                (Toy.toy_hash "secret123" "salt"))).
    reflexivity.
Defined.

Lemma layout_fallback_finds_no_user_witness :
  layout_at Toy.env Toy.world (Toy.with_ada true) ToyClient.fresh
  = ToyClient.fresh.
Proof.
  apply (proj1 (layout_fallback_finds_no_user Toy.env Toy.world
                  (Toy.with_ada true) ToyClient.fresh eq_refl)).
Defined.

End BrowserFacts.

(* ================================================================== *)
(** * What the answers of the auth routes hold *)
(* ================================================================== *)

Module AnswerFacts.

Import Auth Api.

#[local] Arguments User.findOne : simpl never.
#[local] Arguments User.findById : simpl never.
#[local] Arguments User.create : simpl never.
#[local] Arguments Jwt.sign : simpl never.
#[local] Arguments Jwt.verify : simpl never.

Ltac answered :=
  simpl; intros Hr; injection Hr as <-; split; reflexivity.

Section WithPrimitives.

Context `{C : Jwt.Codec} `{K : Bcrypt.Kdf}.

(** X19: No answer of register, login or me has a property named
    [passwordHash] or [password], at any depth: the stored hash and
    the submitted password are never sent back. *)
Theorem answers_never_carry_hash (env : Env) (c : Call)
    (db : User.Collection) (r : Response) :
  snd (serve env db c) = Ok r ->
  has_key "passwordHash" (body r) = false
  /\ has_key "password" (body r) = false.
Proof.
  destruct c as [w b|w b|w req]; unfold serve.
  - unfold register, try_async, await, findOne, create, lift.
    destruct (falsy_str (name b) || falsy_str (email b)
              || falsy_str (password b)); [answered|].
    destruct (User.findOne db (email b)); [answered|].
    destruct (Bcrypt.hash (password b) (salt w)); [|answered].
    destruct (User.create db _ _ _) as [[user db']|]; [|answered].
    destruct (Jwt.sign _ _ _); answered.
  - unfold login, try_async, await, findOne, lift.
    destruct (User.findOne db (email b)) as [u|]; [|answered].
    destruct (Bcrypt.compare (password b) (User.passwordHash u)) as [[|]|];
      [|answered|answered].
    cbn [negb]. destruct (Jwt.sign _ _ _); answered.
  - unfold me, protect, authMiddleware.
    destruct (falsy_str (token_of req)); [answered|].
    destruct (Jwt.verify _ _ _) as [decoded|]; [|answered].
    cbn [bind try_catch]. unfold me_handler, await, findById.
    destruct (User.findById db _); answered.
Qed.

End WithPrimitives.

#[local] Existing Instance Toy.codec.
#[local] Existing Instance Toy.kdf.

Lemma answers_never_carry_hash_witness :
  exists r,
    snd (serve Toy.env (Toy.with_ada true)
           (PostLogin Toy.world
              (mkBody None (Some "ada@example.com") (Some "secret123"))))
    = Ok r
    /\ status r = 200%Z
    /\ has_key "passwordHash" (body r) = false
    /\ has_key "password" (body r) = false.
Proof.
  eexists. split; [vm_compute; reflexivity|]. split; [reflexivity|].
  apply (answers_never_carry_hash Toy.env
           (PostLogin Toy.world
              (mkBody None (Some "ada@example.com") (Some "secret123")))
           (Toy.with_ada true)).
  vm_compute. reflexivity.
Defined.

End AnswerFacts.

(* ================================================================== *)
(** * Start-up, in general *)
(* ================================================================== *)

Module StartupBounds.

Import Startup.

Section WithNode.

Context `{P : PortCheck}.

Lemma decimal_port_listens (env : Env) (s : string) (n : N) :
  PORT env = Some s -> decimal s = Some n ->
  listen env = if (65535 <? n)%N
               then Throw "options.port should be >= 0 and < 65536"
               else Ok tt.
Proof.
  intros Hport Hdec. unfold listen, port. rewrite Hport.
  destruct s as [|c s]; [discriminate Hdec|].
  cbn [falsy_str String.eqb]. rewrite Hdec. reflexivity.
Qed.

(** X20: Start-up ends with [process.exit(1)] whenever MONGODB_URI is
    missing or the database cannot be reached, and also, with the
    database reachable, when PORT is a decimal number above 65535:
    [app.listen] throws inside the [then] and the same [catch] exits.
    With the database reachable and PORT unset, empty or a decimal
    number up to 65535, start-up gets to [app.listen] on that port
    (4000 when PORT is unset or empty) and does not exit.  The only
    exit code start-up uses is 1. *)
Theorem startup_outcomes (env : Env) (reachable : string -> bool) :
  ((MONGODB_URI env = None
    \/ exists u, MONGODB_URI env = Some u /\ reachable u = false) ->
   main env reachable = Exited 1)
  /\ (forall u, MONGODB_URI env = Some u -> reachable u = true ->
       (falsy_str (PORT env) = true ->
        main env reachable = Listening "4000")
       /\ (forall s n, PORT env = Some s -> decimal s = Some n ->
            main env reachable
            = if (n <=? 65535)%N then Listening s else Exited 1))
  /\ (forall code, main env reachable = Exited code -> code = 1%Z).
Proof.
  split; [|split].
  - intros [Hnone | [u [Hsome Hdown]]]; unfold main, connect.
    + rewrite Hnone. reflexivity.
    + rewrite Hsome, Hdown. reflexivity.
  - intros u Hsome Hup. split.
    + intros Hport. unfold main, connect, listen, port.
      rewrite Hsome, Hup, Hport. reflexivity.
    + intros s n Hport Hdec. unfold main, connect.
      rewrite Hsome, Hup. cbn [bind].
      rewrite (decimal_port_listens env s n Hport Hdec).
      rewrite N.leb_antisym. unfold port. rewrite Hport.
      destruct s as [|c s]; [discriminate Hdec|].
      destruct (65535 <? n)%N; reflexivity.
  - intros code. unfold main.
    destruct (connect reachable (MONGODB_URI env)); cbn [bind try_catch].
    + destruct (listen env); cbn [bind try_catch]; [discriminate|].
      now intros [= <-].
    + now intros [= <-].
Qed.

End WithNode.

#[local] Existing Instance ToyClient.ports.

(** A port one above the largest, and the largest. *)
Lemma startup_outcomes_witness :
  main (mkEnv None (Some "mongodb://localhost/finverse") (Some "65536") None)
    (fun _ => true) = Exited 1
  /\ main (mkEnv None (Some "mongodb://localhost/finverse") (Some "65535")
             None)
       (fun _ => true) = Listening "65535".
Proof.
  split.
  - apply (proj2 (proj1 (proj2 (startup_outcomes
             (mkEnv None (Some "mongodb://localhost/finverse")
                (Some "65536") None) (fun _ => true)))
             "mongodb://localhost/finverse" eq_refl eq_refl)
             "65536" 65536%N eq_refl eq_refl).
  - apply (proj2 (proj1 (proj2 (startup_outcomes
             (mkEnv None (Some "mongodb://localhost/finverse")
                (Some "65535") None) (fun _ => true)))
             "mongodb://localhost/finverse" eq_refl eq_refl)
             "65535" 65535%N eq_refl eq_refl).
Defined.

End StartupBounds.
